(** * SupaToolifyMCP: introspection, type mapping, tool registration, invocation

    A shallow embedding of the pipeline of the repository:
    - [supabase.ts]      : [callRpc], [selectFromView]
    - [introspection.ts] : the zod schemas, [fetchObjectDetails],
                           [transformToToolDefinition], [introspectSchema]
    - [tool-factory.ts]  : [mapPgTypeToZod], [generateInputSchemaShape],
                           the per-tool handler, [registerTools]

    JavaScript values are a tree type; a JavaScript string is a [string] (its
    text as a sequence of bytes; case conversion acts on the ASCII letters).
    The database and the console are threaded explicitly: every asynchronous
    method is a function from the state before the call to an outcome (a
    thrown value or a result) and the state after it. *)

From Stdlib Require Import ZArith String Ascii List Bool Lia DecimalString DecimalZ DecimalPos.
From stdpp Require Import base option list gmap strings fin_maps pretty.

Local Open Scope list_scope.
Local Open Scope string_scope.

(** ** JavaScript strings *)

Module JsString.

Definition toLowerChar (c : ascii) : ascii :=
  let n := nat_of_ascii c in
  if (65 <=? n)%nat && (n <=? 90)%nat then ascii_of_nat (n + 32) else c.

Definition toUpperChar (c : ascii) : ascii :=
  let n := nat_of_ascii c in
  if (97 <=? n)%nat && (n <=? 122)%nat then ascii_of_nat (n - 32) else c.

(** [s.toLowerCase()] *)
Fixpoint toLowerCase (s : string) : string :=
  match s with
  | EmptyString => EmptyString
  | String c r => String (toLowerChar c) (toLowerCase r)
  end.

(** [s.startsWith(p)] *)
Definition startsWith (s p : string) : bool := String.prefix p s.

(** [s.endsWith(p)] *)
Definition endsWith (s p : string) : bool :=
  (String.length p <=? String.length s)%nat
  && String.eqb (String.substring (String.length s - String.length p) (String.length p) s) p.

(** [s.substring(1)] *)
Definition substring1 (s : string) : string :=
  String.substring 1 (String.length s - 1) s.

(** [s.slice(0, -2)] *)
Definition slice0m2 (s : string) : string :=
  String.substring 0 (String.length s - 2) s.

(** [s.replace(/ /g, "")] *)
Fixpoint removeSpaces (s : string) : string :=
  match s with
  | EmptyString => EmptyString
  | String c r => if Ascii.eqb c " " then removeSpaces r else String c (removeSpaces r)
  end.

(** [s.split(sep)] for a one-character separator; never the empty list. *)
Fixpoint split (sep : ascii) (s : string) : list string :=
  match s with
  | EmptyString => [EmptyString]
  | String c r =>
      if Ascii.eqb c sep then EmptyString :: split sep r
      else match split sep r with
           | seg :: segs => String c seg :: segs
           | [] => [String c EmptyString]
           end
  end.

(** [segs.join(sep)] for a one-character separator. *)
Fixpoint join (sep : ascii) (segs : list string) : string :=
  match segs with
  | [] => EmptyString
  | [seg] => seg
  | seg :: rest => seg ++ String sep (join sep rest)
  end.

Fixpoint concat (segs : list string) : string :=
  match segs with
  | [] => EmptyString
  | seg :: rest => seg ++ concat rest
  end.

(** Whether a character occurs in a string. *)
Fixpoint contains (c : ascii) (s : string) : bool :=
  match s with
  | EmptyString => false
  | String d r => Ascii.eqb d c || contains c r
  end.

(** A [switch] over string cases that share one body. *)
Definition oneOf (s : string) (cases : list string) : bool :=
  existsb (String.eqb s) cases.

End JsString.

(** ** JavaScript values

    [Num] is the type of JavaScript numbers (IEEE doubles).  The pipeline never
    computes with them; it only asks whether one is an integer (zod's
    [z.number().int()]) and prints one ([JSON.stringify]).  Both are taken
    from the runtime through [JSNumberOps]. *)

#[local] Unset Elimination Schemes.
Inductive JSValue (Num : Type) : Type :=
| JSUndefined
| JSNull
| JSBool (b : bool)
| JSNumber (n : Num)
| JSBigInt (z : Z)
| JSString (s : string)
| JSArray (xs : list (JSValue Num))
| JSObject (fields : list (string * JSValue Num)).
#[local] Set Elimination Schemes.

Arguments JSUndefined {Num}.
Arguments JSNull {Num}.
Arguments JSBool {Num} b.
Arguments JSNumber {Num} n.
Arguments JSBigInt {Num} z.
Arguments JSString {Num} s.
Arguments JSArray {Num} xs.
Arguments JSObject {Num} fields.

Class JSNumberOps (Num : Type) : Type := {
  (** [Number.isInteger(n)] *)
  Number_isInteger : Num -> bool;
  (** What [JSON.stringify] prints for a number: its [ToString], or [null]
      when it is not finite. *)
  Number_toJSON : Num -> string
}.

(** A thrown value: an [Error] with its message, or any other value. *)
Inductive Thrown : Type :=
| ErrorObj (message : string)
| NonError.

(** [BigInt.prototype.toString()]: the decimal digits, with a leading minus
    sign for a negative value. *)
Definition BigInt_toString (z : Z) : string :=
  NilZero.string_of_int (Z.to_int z).

(** Reading a decimal string back as an integer. *)
Definition BigInt_parse (s : string) : option Z :=
  match NilZero.int_of_string s with
  | Some d => Some (Z.of_int d)
  | None => None
  end.

(** ** The console and the database client

    [console.log], [console.warn] and [console.error] append one entry each;
    an entry keeps the level and the first argument (the message, with its
    template placeholders filled in), not the objects printed after it. *)

Inductive Level : Type := LOG | WARN | ERROR.

Record LogEntry : Type := { level : Level; text : string }.

(** What awaiting a [supabase-js] query gives: the promise rejects, or it
    resolves to [{ data, error }] where [error] is [null] or carries a
    message. *)
Record PostgrestError : Type := { pe_message : string }.

Inductive ClientOutcome (Num : Type) : Type :=
| Rejected (e : Thrown)
| Settled (data : JSValue Num) (error : option PostgrestError).

Arguments Rejected {Num} e.
Arguments Settled {Num} data error.

(** The [supabase-js] client created in the wrapper's constructor:
    [client.rpc(functionName, params, {})] and [client.from(viewName).select("*")],
    each acting on the state of the database. *)
Class SupabaseJs (Num World : Type) : Type := {
  client_rpc : string -> gmap string (JSValue Num) -> World -> ClientOutcome Num * World;
  client_from_select : string -> World -> ClientOutcome Num * World
}.

Record State (World : Type) : Type := { db : World; console : list LogEntry }.

Arguments db {World} s.
Arguments console {World} s.
Arguments Build_State {World} db console.

(** A computation that may throw, over the database and the console. *)
Definition M (World A : Type) : Type := State World -> (Thrown + A) * State World.

#[global] Instance M_ret {World} : MRet (M World) :=
  fun A (a : A) st => (inr a, st).

#[global] Instance M_bind {World} : MBind (M World) :=
  fun A B (k : A -> M World B) (m : M World A) st =>
    match m st with
    | (inl e, st') => (inl e, st')
    | (inr a, st') => k a st'
    end.

Definition throw {World A} (e : Thrown) : M World A :=
  fun st => (inl e, st).

(** [try { body } catch (error) { handler(error) }] *)
Definition tryCatch {World A} (body : M World A) (handler : Thrown -> M World A) : M World A :=
  fun st =>
    match body st with
    | (inl e, st') => handler e st'
    | (inr a, st') => (inr a, st')
    end.

Definition console_write {World} (l : Level) (msg : string) : M World unit :=
  fun st =>
    (inr tt,
     {| db := db st; console := (console st ++ [{| level := l; text := msg |}])%list |}).

Definition console_log {World} := @console_write World LOG.
Definition console_warn {World} := @console_write World WARN.
Definition console_error {World} := @console_write World ERROR.

(** Awaiting a query of the client. *)
Definition await_client {Num World} (q : World -> ClientOutcome Num * World)
  : M World (JSValue Num * option PostgrestError) :=
  fun st =>
    match q (db st) with
    | (Rejected e, w) => (inl e, {| db := w; console := console st |})
    | (Settled data error, w) => (inr (data, error), {| db := w; console := console st |})
    end.

(** ** supabase.ts *)

Record SupabaseClientWrapper : Type := { schema : string }.

Section Supabase.
Context {Num World : Type} `{!SupabaseJs Num World}.

Definition callRpc (this : SupabaseClientWrapper) (functionName : string)
    (params : gmap string (JSValue Num)) : M World (JSValue Num) :=
  console_log ("Calling RPC: " ++ schema this ++ "." ++ functionName ++ " with params:");;
  r ← await_client (client_rpc functionName params);
  match r.2 with
  | Some error =>
      console_error ("RPC call to " ++ schema this ++ "." ++ functionName ++ " failed:");;
      throw (ErrorObj ("Supabase RPC call failed for " ++ functionName ++ ": " ++ pe_message error))
  | None =>
      console_log ("RPC " ++ schema this ++ "." ++ functionName ++ " successful.");;
      mret r.1
  end.

Definition selectFromView (this : SupabaseClientWrapper) (viewName : string)
    : M World (JSValue Num) :=
  console_log ("Selecting * from view: " ++ schema this ++ "." ++ viewName);;
  r ← await_client (client_from_select viewName);
  match r.2 with
  | Some error =>
      console_error ("Select from view " ++ schema this ++ "." ++ viewName ++ " failed:");;
      throw (ErrorObj ("Supabase select failed for view " ++ viewName ++ " in schema "
                         ++ schema this ++ ": " ++ pe_message error))
  | None =>
      console_log ("Select from " ++ schema this ++ "." ++ viewName ++ " successful.");;
      (* data ?? [] *)
      mret (match r.1 with
            | JSUndefined | JSNull => JSArray []
            | data => data
            end)
  end.

End Supabase.

(** ** zod

    A schema is modelled by its [safeParse]: [Some] of the parsed data, or
    [None] when validation reports issues.  Only the combinators the
    repository uses are given. *)

Section Zod.
Context {Num : Type} `{!JSNumberOps Num}.

(** [obj[key]]: the own property, [undefined] when there is none. *)
Fixpoint prop (key : string) (fields : list (string * JSValue Num)) : JSValue Num :=
  match fields with
  | [] => JSUndefined
  | (k, v) :: rest => if String.eqb k key then v else prop key rest
  end.

Definition z_string (v : JSValue Num) : option string :=
  match v with JSString s => Some s | _ => None end.

Definition z_boolean (v : JSValue Num) : option bool :=
  match v with JSBool b => Some b | _ => None end.

(** [z.number().int()] *)
Definition z_number_int (v : JSValue Num) : option Num :=
  match v with
  | JSNumber n => if Number_isInteger n then Some n else None
  | _ => None
  end.

(** [inner.nullable()]: [null] parses to [null] ([None]). *)
Definition z_nullable {A} (inner : JSValue Num -> option A) (v : JSValue Num) : option (option A) :=
  match v with
  | JSNull => Some None
  | _ => Some <$> inner v
  end.

(** [inner.optional()]: [undefined] parses to [undefined] ([None]). *)
Definition z_optional {A} (inner : JSValue Num -> option A) (v : JSValue Num) : option (option A) :=
  match v with
  | JSUndefined => Some None
  | _ => Some <$> inner v
  end.

(** [z.array(inner)] *)
Definition z_array {A} (inner : JSValue Num -> option A) (v : JSValue Num) : option (list A) :=
  match v with
  | JSArray xs => mapM inner xs
  | _ => None
  end.

End Zod.

(** ** introspection.ts: the raw structures of the RPC results *)

Inductive ObjectType : Type := VIEW | FUNCTION.

Definition ObjectType_text (t : ObjectType) : string :=
  match t with VIEW => "VIEW" | FUNCTION => "FUNCTION" end.

Record RawSchemaObject : Type := {
  so_object_name : string;
  so_object_type : ObjectType;
  so_comment : option string
}.

Record ColumnDetail : Type := {
  column_name : string;
  cd_data_type : string;
  is_nullable : bool;
  cd_comment : option string
}.

Record ParameterDetail (Num : Type) : Type := {
  parameter_name : string;
  pd_data_type : string;
  position : Num
}.

Arguments parameter_name {Num} p.
Arguments pd_data_type {Num} p.
Arguments position {Num} p.
Arguments Build_ParameterDetail {Num} parameter_name pd_data_type position.

(** The optional fields are [None] when the key is absent. *)
Record RawObjectDetails (Num : Type) : Type := {
  object_name : string;
  object_type : ObjectType;
  comment : option string;
  columns : option (list ColumnDetail);
  parameters : option (list (ParameterDetail Num));
  return_type : option string;
  returns_set : option bool
}.

Arguments object_name {Num} r.
Arguments object_type {Num} r.
Arguments comment {Num} r.
Arguments columns {Num} r.
Arguments parameters {Num} r.
Arguments return_type {Num} r.
Arguments returns_set {Num} r.
Arguments Build_RawObjectDetails {Num} object_name object_type comment columns parameters
  return_type returns_set.

Section Schemas.
Context {Num : Type} `{!JSNumberOps Num}.

(** [z.enum(["VIEW", "FUNCTION"])] *)
Definition z_enum_object_type (v : JSValue Num) : option ObjectType :=
  match v with
  | JSString s =>
      if String.eqb s "VIEW" then Some VIEW
      else if String.eqb s "FUNCTION" then Some FUNCTION
      else None
  | _ => None
  end.

Definition schemaObjectSchema (v : JSValue Num) : option RawSchemaObject :=
  match v with
  | JSObject o =>
      n ← z_string (prop "object_name" o);
      t ← z_enum_object_type (prop "object_type" o);
      c ← z_nullable z_string (prop "comment" o);
      Some {| so_object_name := n; so_object_type := t; so_comment := c |}
  | _ => None
  end.

Definition columnDetailSchema (v : JSValue Num) : option ColumnDetail :=
  match v with
  | JSObject o =>
      n ← z_string (prop "column_name" o);
      t ← z_string (prop "data_type" o);
      b ← z_boolean (prop "is_nullable" o);
      c ← z_nullable z_string (prop "comment" o);
      Some {| column_name := n; cd_data_type := t; is_nullable := b; cd_comment := c |}
  | _ => None
  end.

Definition parameterDetailSchema (v : JSValue Num) : option (ParameterDetail Num) :=
  match v with
  | JSObject o =>
      n ← z_string (prop "parameter_name" o);
      t ← z_string (prop "data_type" o);
      p ← z_number_int (prop "position" o);
      Some {| parameter_name := n; pd_data_type := t; position := p |}
  | _ => None
  end.

Definition objectDetailsSchema (v : JSValue Num) : option (RawObjectDetails Num) :=
  match v with
  | JSObject o =>
      n ← z_string (prop "object_name" o);
      t ← z_enum_object_type (prop "object_type" o);
      c ← z_nullable z_string (prop "comment" o);
      cols ← z_optional (z_array columnDetailSchema) (prop "columns" o);
      params ← z_optional (z_array parameterDetailSchema) (prop "parameters" o);
      rt ← z_optional z_string (prop "return_type" o);
      rs ← z_optional z_boolean (prop "returns_set" o);
      Some {| object_name := n; object_type := t; comment := c; columns := cols;
              parameters := params; return_type := rt; returns_set := rs |}
  | _ => None
  end.

End Schemas.

(** ** introspection.ts: the format handed to the tool factory *)

Record IntrospectedParameter : Type := {
  name : string;
  toolParamName : string;
  pgType : string;
  description : option string
}.

Record IntrospectedColumn : Type := {
  ic_name : string;
  ic_pgType : string;
  isNullable : bool;
  ic_description : option string
}.

Record IntrospectedToolDefinition : Type := {
  toolName : string;
  pgName : string;
  type : ObjectType;
  td_description : option string;
  td_parameters : list IntrospectedParameter;
  pgReturnType : option string;
  pgReturnsSet : option bool;
  td_columns : list IntrospectedColumn
}.

(** Modelled from the spec: [camelCase] is imported from the [change-case]
    package, which is not among the repository's files.  The rule of the
    specification: split the identifier on underscores, lower-case the first
    segment, capitalize the first letter of each subsequent segment, and
    concatenate. *)
Definition capitalizeFirst (seg : string) : string :=
  match seg with
  | EmptyString => EmptyString
  | String c r => String (JsString.toUpperChar c) r
  end.

Definition camelCase (identifier : string) : string :=
  match JsString.split "_" identifier with
  | [] => EmptyString
  | first :: rest =>
      JsString.concat (JsString.toLowerCase first :: List.map capitalizeFirst rest)
  end.

Section Introspection.
Context {Num World : Type} `{!JSNumberOps Num} `{!SupabaseJs Num World}.

Definition transformToToolDefinition (details : RawObjectDetails Num)
    : IntrospectedToolDefinition :=
  let toolName := camelCase (object_name details) in
  let description := comment details in
  let '(parameters, columns, pgReturnType, pgReturnsSet) :=
    match object_type details, parameters details, columns details with
    | FUNCTION, Some ps, _ =>
        (List.map (fun p => {| name := parameter_name p;
                               toolParamName := camelCase (parameter_name p);
                               pgType := pd_data_type p;
                               description := description |}) ps,
         [], return_type details, returns_set details)
    | VIEW, _, Some cs =>
        ([],
         List.map (fun c => {| ic_name := column_name c;
                               ic_pgType := cd_data_type c;
                               isNullable := is_nullable c;
                               ic_description := cd_comment c |}) cs,
         None, None)
    | _, _, _ => ([], [], None, None)
    end in
  {| toolName := toolName;
     pgName := object_name details;
     type := object_type details;
     td_description := description;
     td_parameters := parameters;
     pgReturnType := pgReturnType;
     pgReturnsSet := pgReturnsSet;
     td_columns := columns |}.

(** [!result || typeof result !== "object"]: of the values whose [typeof]
    is ["object"] ([null], arrays, objects) only [null] is falsy. *)
Definition not_an_object (result : JSValue Num) : bool :=
  match result with
  | JSArray _ | JSObject _ => false
  | _ => true
  end.

Definition fetchObjectDetails (this : SupabaseClientWrapper)
    (objectName : string) (objectType : ObjectType)
    : M World (option (RawObjectDetails Num)) :=
  tryCatch
    (result ← callRpc this "rpc_get_object_details"
                (<["p_object_name" := JSString objectName]>
                   (<["p_object_type" := JSString (ObjectType_text objectType)]> ∅));
     if not_an_object result then
       console_warn ("RPC rpc_get_object_details returned invalid data for "
                       ++ ObjectType_text objectType ++ " " ++ objectName);;
       mret None
     else
       match objectDetailsSchema result with
       | None =>
           console_error ("Validation failed for rpc_get_object_details result ("
                            ++ objectName ++ "):");;
           mret None
       | Some data => mret (Some data)
       end)
    (fun error =>
       console_error ("Failed to fetch details for " ++ ObjectType_text objectType ++ " "
                        ++ objectName ++ " via RPC:");;
       mret None).

(** The body of [for (const obj of rawObjects)], with the array of tool
    definitions collected so far. *)
Fixpoint introspect_loop (this : SupabaseClientWrapper) (rawObjects : list RawSchemaObject)
    (toolDefinitions : list IntrospectedToolDefinition)
    : M World (list IntrospectedToolDefinition) :=
  match rawObjects with
  | [] => mret toolDefinitions
  | obj :: rest =>
      toolDefinitions' ←
        tryCatch
          (console_log ("Fetching details for " ++ ObjectType_text (so_object_type obj)
                          ++ ": " ++ so_object_name obj);;
           details ← fetchObjectDetails this (so_object_name obj) (so_object_type obj);
           match details with
           | None =>
               console_warn ("Could not fetch or parse details for "
                               ++ ObjectType_text (so_object_type obj) ++ " "
                               ++ so_object_name obj ++ ", skipping.");;
               mret toolDefinitions (* continue *)
           | Some details =>
               mret (toolDefinitions ++ [transformToToolDefinition details])%list
           end)
          (fun error =>
             console_error ("Failed to process " ++ ObjectType_text (so_object_type obj)
                              ++ " " ++ so_object_name obj ++ ":");;
             mret toolDefinitions);
      introspect_loop this rest toolDefinitions'
  end.

(** The first [try] of [introspectSchema]: the parsed object list, or
    [None] where the source leaves the function with [return []]. *)
Definition listSchemaObjects (this : SupabaseClientWrapper)
    : M World (option (list RawSchemaObject)) :=
  tryCatch
    (result ← callRpc this "rpc_get_schema_objects" ∅;
     match z_array schemaObjectSchema result with
     | None =>
         console_error "Failed to parse result from rpc_get_schema_objects:";;
         mret None
     | Some rawObjects =>
         console_log ("Found " ++ pretty (length rawObjects) ++ " objects via RPC.");;
         mret (Some rawObjects)
     end)
    (fun error =>
       console_error "Failed to fetch schema objects via RPC:";;
       mret None).

Definition introspectSchema (this : SupabaseClientWrapper)
    : M World (list IntrospectedToolDefinition) :=
  console_log "Starting schema introspection...";;
  listed ← listSchemaObjects this;
  match listed with
  | None => mret []
  | Some rawObjects =>
      toolDefinitions ← introspect_loop this rawObjects [];
      console_log ("Schema introspection completed. Found "
                     ++ pretty (length toolDefinitions) ++ " potential tools.");;
      mret toolDefinitions
  end.

End Introspection.

(** ** tool-factory.ts: the type mapping *)

(** The zod schemas [mapPgTypeToZod] builds. *)
Inductive ZodType : Type :=
| ZodString                                        (* z.string() *)
| ZodStringRegex (pattern message : string)        (* z.string().regex(/pattern/, { message }) *)
| ZodStringUuid                                    (* z.string().uuid() *)
| ZodStringDate (message : string)                 (* z.string().date(message) *)
| ZodStringDatetime (message : string)             (* z.string().datetime({ message }) *)
| ZodNumber                                        (* z.number() *)
| ZodNumberInt                                     (* z.number().int() *)
| ZodBigInt                                        (* z.bigint() *)
| ZodBoolean                                       (* z.boolean() *)
| ZodAny                                           (* z.any() *)
| ZodArray (element : ZodType)                     (* z.array(element) *)
| ZodNullable (inner : ZodType)                    (* inner.nullable() *)
| ZodDescribed (inner : ZodType) (text : string).  (* inner.describe(text) *)

Definition dquote : string := String "034"%char EmptyString.

(** [obj[key] = v] on a plain object, as its own properties: the key
    [__proto__] reaches the prototype setter and creates no property. *)
Definition js_set {V} (key : string) (v : V) (obj : gmap string V) : gmap string V :=
  if String.eqb key "__proto__" then obj else <[key := v]> obj.

(** [xs.forEach(x => ...)] over a mutable accumulator. *)
Fixpoint forEach {World A S} (f : S -> A -> M World S) (xs : list A) (s : S) : M World S :=
  match xs with
  | [] => mret s
  | x :: rest => s' ← f s x; forEach f rest s'
  end.

Section TypeMapping.
Context {World : Type}.

Definition mapPgTypeToZod (pgType : string) (isNullable : bool) : M World ZodType :=
  let isArray := JsString.startsWith pgType "_" || JsString.endsWith pgType "[]" in
  let elementType :=
    if isArray then
      if JsString.startsWith pgType "_" then JsString.substring1 pgType
      else JsString.slice0m2 pgType
    else pgType in
  let normalizedElementType := JsString.removeSpaces (JsString.toLowerCase elementType) in
  baseType ←
    (if JsString.oneOf normalizedElementType ["text"; "varchar"; "char"; "name"; "bpchar"] then
       mret ZodString
     else if JsString.oneOf normalizedElementType
               ["int"; "integer"; "int4"; "smallint"; "serial"; "smallserial"] then
       mret ZodNumberInt
     else if JsString.oneOf normalizedElementType ["bigint"; "bigserial"; "int8"] then
       mret ZodBigInt
     else if JsString.oneOf normalizedElementType ["numeric"; "decimal"] then
       mret (ZodStringRegex "^-?\d+(\.\d+)?$" "Invalid numeric string")
     else if JsString.oneOf normalizedElementType
               ["real"; "float4"; "doubleprecision"; "float8"] then
       mret ZodNumber
     else if JsString.oneOf normalizedElementType ["boolean"; "bool"] then
       mret ZodBoolean
     else if JsString.oneOf normalizedElementType ["uuid"] then
       mret ZodStringUuid
     else if JsString.oneOf normalizedElementType ["date"] then
       mret (ZodStringDate "Invalid date string, expected YYYY-MM-DD")
     else if JsString.oneOf normalizedElementType ["timestamp"; "timestamptz"] then
       mret (ZodStringDatetime "Invalid timestamp string")
     else if JsString.oneOf normalizedElementType ["json"; "jsonb"] then
       mret ZodAny
     else if JsString.oneOf normalizedElementType ["bytea"] then
       mret ZodString
     else
       console_warn ("Unknown PostgreSQL element type " ++ dquote ++ elementType ++ dquote
                       ++ ", mapping to z.any().");;
       mret ZodAny);
  let finalType := if isArray then ZodArray baseType else baseType in
  mret (if isNullable then ZodNullable finalType else finalType).

(** [param.description ? zodType.describe(param.description) : zodType]:
    the empty string is falsy. *)
Definition describeIfTruthy (d : option string) (zodType : ZodType) : ZodType :=
  match d with
  | Some text => if String.eqb text "" then zodType else ZodDescribed zodType text
  | None => zodType
  end.

Definition generateInputSchemaShape (parameters : list IntrospectedParameter)
    : M World (gmap string ZodType) :=
  forEach
    (fun schemaShape param =>
       zodType ← mapPgTypeToZod (pgType param) false;
       mret (js_set (toolParamName param) (describeIfTruthy (description param) zodType)
               schemaShape))
    parameters ∅.

End TypeMapping.

(** ** JSON.stringify

    [JSON.stringify(value, replacer, gap)] for a replacer function and a
    string gap, after ECMA-262 (SerializeJSONProperty, SerializeJSONArray,
    SerializeJSONObject, QuoteJSONString).  A replacer may return anything,
    so the recursion is on a bound for the nesting depth. *)

Inductive Completion : Type :=
| OutOfFuel
| Throw (e : Thrown)
| Undefined
| Text (s : string).

Module JSON.
Section Stringify.
Context {Num : Type} `{!JSNumberOps Num}.

Definition newline : string := String "010"%char EmptyString.

Definition hexDigit (n : nat) : ascii :=
  if (n <? 10)%nat then ascii_of_nat (48 + n) else ascii_of_nat (87 + n).

Definition quoteChar (c : ascii) : string :=
  let n := nat_of_ascii c in
  if (n =? 8)%nat then "\b"
  else if (n =? 9)%nat then "\t"
  else if (n =? 10)%nat then "\n"
  else if (n =? 12)%nat then "\f"
  else if (n =? 13)%nat then "\r"
  else if (n =? 34)%nat then "\" ++ dquote
  else if (n =? 92)%nat then "\\"
  else if (n <? 32)%nat then
    "\u00" ++ String (hexDigit (n / 16)) (String (hexDigit (n mod 16)) EmptyString)
  else String c EmptyString.

Fixpoint quoteChars (s : string) : string :=
  match s with
  | EmptyString => EmptyString
  | String c r => quoteChar c ++ quoteChars r
  end.

Definition QuoteJSONString (s : string) : string :=
  dquote ++ quoteChars s ++ dquote.

Fixpoint joinWith (separator : string) (parts : list string) : string :=
  match parts with
  | [] => EmptyString
  | [p] => p
  | p :: rest => p ++ separator ++ joinWith separator rest
  end.

(** The elements of an array in order; [undefined] prints as [null]. *)
Fixpoint arrayPartial (ser : JSValue Num -> Completion) (xs : list (JSValue Num))
    : Completion + list string :=
  match xs with
  | [] => inr []
  | x :: rest =>
      match ser x with
      | OutOfFuel => inl OutOfFuel
      | Throw e => inl (Throw e)
      | Undefined => match arrayPartial ser rest with
                     | inl c => inl c
                     | inr partial => inr ("null" :: partial)
                     end
      | Text s => match arrayPartial ser rest with
                  | inl c => inl c
                  | inr partial => inr (s :: partial)
                  end
      end
  end.

(** The members of an object in order; an [undefined] member is left out. *)
Fixpoint objectPartial (ser : JSValue Num -> Completion) (fields : list (string * JSValue Num))
    : Completion + list string :=
  match fields with
  | [] => inr []
  | (k, v) :: rest =>
      match ser v with
      | OutOfFuel => inl OutOfFuel
      | Throw e => inl (Throw e)
      | Undefined => objectPartial ser rest
      | Text s => match objectPartial ser rest with
                  | inl c => inl c
                  | inr partial => inr ((QuoteJSONString k ++ ": " ++ s) :: partial)
                  end
      end
  end.

Definition wrap (open close stepback indent : string) (partial : Completion + list string)
    : Completion :=
  match partial with
  | inl c => c
  | inr [] => Text (open ++ close)
  | inr parts =>
      Text (open ++ newline ++ indent ++ joinWith ("," ++ newline ++ indent) parts
              ++ newline ++ stepback ++ close)
  end.

Fixpoint SerializeJSONProperty (replacer : JSValue Num -> JSValue Num) (gap : string)
    (fuel : nat) (indent : string) (value : JSValue Num) : Completion :=
  match fuel with
  | O => OutOfFuel
  | S fuel =>
      match replacer value with
      | JSUndefined => Undefined
      | JSNull => Text "null"
      | JSBool true => Text "true"
      | JSBool false => Text "false"
      | JSString s => Text (QuoteJSONString s)
      | JSNumber n => Text (Number_toJSON n)
      | JSBigInt _ => Throw (ErrorObj "Do not know how to serialize a BigInt")
      | JSArray xs =>
          wrap "[" "]" indent (indent ++ gap)
            (arrayPartial (SerializeJSONProperty replacer gap fuel (indent ++ gap)) xs)
      | JSObject fields =>
          wrap "{" "}" indent (indent ++ gap)
            (objectPartial (SerializeJSONProperty replacer gap fuel (indent ++ gap)) fields)
      end
  end.

(** The nesting depth of a value. *)
Fixpoint height (v : JSValue Num) : nat :=
  match v with
  | JSArray xs => S (foldr (fun x acc => Nat.max (height x) acc) O xs)
  | JSObject fields => S (foldr (fun kv acc => Nat.max (height kv.2) acc) O fields)
  | _ => O
  end.

(** [JSON.stringify(value, replacer, 2)]; the bound is the depth of the
    value, enough for a replacer that returns its argument or a primitive. *)
Definition stringify (value : JSValue Num) (replacer : JSValue Num -> JSValue Num)
    : Completion :=
  SerializeJSONProperty replacer "  " (S (height value)) "" value.

End Stringify.
End JSON.

(** ** tool-factory.ts: the handler of a tool *)

Record TextContent : Type := { tc_type : string; tc_text : string }.

(** [{ content }] has [isError = false]; [{ isError: true, content }] is the
    error structure. *)
Record CallToolResult : Type := { isError : bool; content : list TextContent }.

Section Handler.
Context {Num World : Type} `{!JSNumberOps Num} `{!SupabaseJs Num World}.

(** [hasOwnProperty.call(args, key)] guarded by [args &&]; [None] is a
    missing ([undefined] or [null]) argument map. *)
Definition hasOwn (args : option (gmap string (JSValue Num))) (key : string) : bool :=
  match args with
  | Some a => bool_decide (is_Some (a !! key))
  | None => false
  end.

(** [args[key]] *)
Definition getArg (args : option (gmap string (JSValue Num))) (key : string) : JSValue Num :=
  match args with
  | Some a => default JSUndefined (a !! key)
  | None => JSUndefined
  end.

(** The [rpcParams] record the handler fills from the parameters of the
    definition. *)
Definition buildRpcParams (definition : IntrospectedToolDefinition)
    (args : option (gmap string (JSValue Num))) : gmap string (JSValue Num) :=
  foldl (fun rpcParams paramInfo =>
           if hasOwn args (toolParamName paramInfo)
           then js_set (name paramInfo) (getArg args (toolParamName paramInfo)) rpcParams
           else rpcParams)
        ∅ (td_parameters definition).

(** The read or the call behind a tool. *)
Definition dispatch (this : SupabaseClientWrapper) (definition : IntrospectedToolDefinition)
    (args : option (gmap string (JSValue Num))) : M World (JSValue Num) :=
  match type definition with
  | VIEW => selectFromView this (pgName definition)
  | FUNCTION => callRpc this (pgName definition) (buildRpcParams definition args)
  end.

(** [(_key, value) => typeof value === "bigint" ? value.toString() : value] *)
Definition bigintReplacer (value : JSValue Num) : JSValue Num :=
  match value with
  | JSBigInt z => JSString (BigInt_toString z)
  | _ => value
  end.

Definition noContentText (definition : IntrospectedToolDefinition) : string :=
  "Tool " ++ toolName definition ++ " executed successfully, returning no content.".

(** [contentItemText]: the marker for [undefined] and [null], the JSON text
    otherwise.  [JSON.stringify] gives [undefined] only for an [undefined]
    value, and stays within its bound with this replacer (see
    [stringify_bigintReplacer]); the last two cases are there for totality. *)
Definition encodeResult (definition : IntrospectedToolDefinition) (rawResult : JSValue Num)
    : M World string :=
  match rawResult with
  | JSUndefined | JSNull => mret (noContentText definition)
  | _ =>
      match JSON.stringify rawResult bigintReplacer with
      | Text s => mret s
      | Throw e => throw e
      | Undefined => mret "undefined"
      | OutOfFuel => throw (ErrorObj "Maximum call stack size exceeded")
      end
  end.

Definition handler (this : SupabaseClientWrapper) (definition : IntrospectedToolDefinition)
    (args : option (gmap string (JSValue Num))) : M World CallToolResult :=
  console_log ("Tool handler invoked: " ++ toolName definition ++ " with args:");;
  tryCatch
    (rawResult ← dispatch this definition args;
     console_log ("Tool " ++ toolName definition ++ " executed successfully.");;
     contentItemText ← encodeResult definition rawResult;
     mret {| isError := false;
             content := [{| tc_type := "text"; tc_text := contentItemText |}] |})
    (fun error =>
       console_error ("Error executing tool " ++ toolName definition ++ ":");;
       let errorMessage :=
         match error with
         | ErrorObj message => "Tool execution failed: " ++ message
         | NonError => "An unknown error occurred during tool execution: " ++ toolName definition
         end in
       mret {| isError := true;
               content := [{| tc_type := "text"; tc_text := errorMessage |}] |}).

End Handler.

(** ** tool-factory.ts: registration *)

(** A registered tool: the description and input shape given to
    [server.tool], and the definition its handler closes over. *)
Record RegisteredTool : Type := {
  rt_description : option string;
  rt_inputSchema : gmap string ZodType;
  rt_definition : IntrospectedToolDefinition
}.

(** Modelled from the spec: [McpServer] belongs to the SDK, which is not among
    the repository's files.  The registry is a map from public tool names to
    tools in which two tools never share a name: [server.tool] under a name
    that is taken throws and leaves the registry as it was. *)
Definition McpServer_tool {World} (server : gmap string RegisteredTool) (toolName : string)
    (tool : RegisteredTool) : M World (gmap string RegisteredTool) :=
  match server !! toolName with
  | Some _ => throw (ErrorObj ("Tool " ++ toolName ++ " is already registered"))
  | None => mret (<[toolName := tool]> server)
  end.

Section Registration.
Context {World : Type}.

(** [if (definition.description)]: [undefined] and the empty string are
    falsy, and the tool is then registered without a description. *)
Definition truthyDescription (d : option string) : option string :=
  match d with
  | Some text => if String.eqb text "" then None else Some text
  | None => None
  end.

(** The body of [toolDefinitions.forEach(...)] in [registerTools]. *)
Definition registerTool (server : gmap string RegisteredTool)
    (definition : IntrospectedToolDefinition) : M World (gmap string RegisteredTool) :=
  tryCatch
    (inputSchemaShape ←
       match type definition with
       | FUNCTION => generateInputSchemaShape (td_parameters definition)
       | VIEW => mret ∅
       end;
     server' ← McpServer_tool server (toolName definition)
                 {| rt_description := truthyDescription (td_description definition);
                    rt_inputSchema := inputSchemaShape;
                    rt_definition := definition |};
     console_log ("Registered tool: " ++ toolName definition ++ " (type: "
                    ++ ObjectType_text (type definition) ++ ")");;
     mret server')
    (fun error =>
       console_error ("Failed to define or register tool " ++ toolName definition ++ ":");;
       mret server).

Definition registerTools (toolDefinitions : list IntrospectedToolDefinition)
    (server : gmap string RegisteredTool) : M World (gmap string RegisteredTool) :=
  console_log ("Registering " ++ pretty (length toolDefinitions) ++ " tools...");;
  forEach registerTool toolDefinitions server.

End Registration.

(** ** A scripted database, for concrete runs

    Numbers are the integers; the database answers from fixed tables and
    records every RPC request it receives. *)

Module Mock.

#[global] Instance Z_numbers : JSNumberOps Z :=
  {| Number_isInteger := fun _ => true; Number_toJSON := BigInt_toString |}.

Record Db : Type := {
  objects_reply : ClientOutcome Z;
  details_reply : string -> ClientOutcome Z;
  call_reply : string -> ClientOutcome Z;
  view_reply : string -> ClientOutcome Z;
  requests : list (string * gmap string (JSValue Z))
}.

Definition answer (w : Db) (functionName : string) (params : gmap string (JSValue Z))
    : ClientOutcome Z :=
  if String.eqb functionName "rpc_get_schema_objects" then objects_reply w
  else if String.eqb functionName "rpc_get_object_details" then
    match params !! "p_object_name" with
    | Some (JSString n) => details_reply w n
    | _ => Settled JSNull None
    end
  else call_reply w functionName.

#[global] Instance Db_client : SupabaseJs Z Db :=
  {| client_rpc functionName params w :=
       (answer w functionName params,
        {| objects_reply := objects_reply w; details_reply := details_reply w;
           call_reply := call_reply w; view_reply := view_reply w;
           requests := (requests w ++ [(functionName, params)])%list |});
     client_from_select viewName w := (view_reply w viewName, w) |}.

Definition start (w : Db) : State Db := {| db := w; console := [] |}.

Definition this : SupabaseClientWrapper := {| schema := "mcp_tools" |}.

Definition listing (objs : list (string * string)) : JSValue Z :=
  JSArray (List.map (fun o => JSObject [("object_name", JSString o.1);
                                        ("object_type", JSString o.2);
                                        ("comment", JSNull)]) objs).

Definition functionDetails (n : string) (params : list (string * string * Z)) : JSValue Z :=
  JSObject [("object_name", JSString n);
            ("object_type", JSString "FUNCTION");
            ("comment", JSNull);
            ("parameters",
             JSArray (List.map (fun p => JSObject [("parameter_name", JSString p.1.1);
                                                   ("data_type", JSString p.1.2);
                                                   ("position", JSNumber p.2)]) params));
            ("return_type", JSString "jsonb");
            ("returns_set", JSBool false)].

Definition viewDetails (n : string) (cols : list (string * string)) : JSValue Z :=
  JSObject [("object_name", JSString n);
            ("object_type", JSString "VIEW");
            ("comment", JSNull);
            ("columns",
             JSArray (List.map (fun c => JSObject [("column_name", JSString c.1);
                                                   ("data_type", JSString c.2);
                                                   ("is_nullable", JSBool false);
                                                   ("comment", JSNull)]) cols))].

Definition failure (message : string) : ClientOutcome Z :=
  Settled JSNull (Some {| pe_message := message |}).

(** The catalog is unreachable. *)
Definition unreachable : Db :=
  {| objects_reply := failure "connection refused";
     details_reply := fun _ => failure "connection refused";
     call_reply := fun _ => failure "connection refused";
     view_reply := fun _ => failure "connection refused";
     requests := [] |}.

(** One function whose IN parameters sit at positions 1 and 3. *)
Definition gapped : Db :=
  {| objects_reply := Settled (listing [("transfer", "FUNCTION")]) None;
     details_reply := fun n =>
       Settled (functionDetails n [("p_from", "uuid", 1%Z); ("p_amount", "numeric", 3%Z)]) None;
     call_reply := fun _ => Settled JSNull None;
     view_reply := fun _ => Settled (JSArray []) None;
     requests := [] |}.

(** Three objects; the details of the second one are malformed. *)
Definition oneMalformed : Db :=
  {| objects_reply :=
       Settled (listing [("active_user_profiles", "VIEW"); ("broken", "FUNCTION");
                         ("add_note_to_user", "FUNCTION")]) None;
     details_reply := fun n =>
       if String.eqb n "active_user_profiles" then
         Settled (viewDetails n [("id", "uuid"); ("username", "text")]) None
       else if String.eqb n "broken" then
         Settled (JSObject [("error", JSString "Function details not found or ambiguous")]) None
       else
         Settled (functionDetails n [("p_user_id", "uuid", 1%Z); ("p_note_text", "text", 2%Z)])
           None;
     call_reply := fun _ => Settled JSNull None;
     view_reply := fun _ => Settled (JSArray []) None;
     requests := [] |}.

(** A view without rows. *)
Definition emptyView : IntrospectedToolDefinition :=
  {| toolName := "activeUserProfiles"; pgName := "active_user_profiles"; type := VIEW;
     td_description := None; td_parameters := []; pgReturnType := None;
     pgReturnsSet := None; td_columns := [] |}.

Definition addNoteToUser : IntrospectedToolDefinition :=
  {| toolName := "addNoteToUser"; pgName := "add_note_to_user"; type := FUNCTION;
     td_description := None;
     td_parameters :=
       [{| name := "p_user_id"; toolParamName := "pUserId"; pgType := "uuid";
           description := None |};
        {| name := "p_note_text"; toolParamName := "pNoteText"; pgType := "text";
           description := None |}];
     pgReturnType := Some "jsonb"; pgReturnsSet := Some false; td_columns := [] |}.

End Mock.

(** ** Reference definitions the theorems compare the code with *)

Section Reference.
Context {Num World : Type} `{!JSNumberOps Num} `{!SupabaseJs Num World}.

(** The parameters of the [rpc_get_object_details] request for an object. *)
Definition detailsRequest (obj : RawSchemaObject) : gmap string (JSValue Num) :=
  <["p_object_name" := JSString (so_object_name obj)]>
    (<["p_object_type" := JSString (ObjectType_text (so_object_type obj))]> ∅).

(** The object list in a listing outcome: present when the call resolved
    without an error to an array of well-formed entries. *)
Definition parsedListing (outcome : ClientOutcome Num) : option (list RawSchemaObject) :=
  match outcome with
  | Settled data None => z_array schemaObjectSchema data
  | _ => None
  end.

(** The details in a detail outcome: present when the call resolved without
    an error to data of the expected shape. *)
Definition validDetails (outcome : ClientOutcome Num) : option (RawObjectDetails Num) :=
  match outcome with
  | Settled data None => objectDetailsSchema data
  | _ => None
  end.

(** Discovery as a fold over the listed objects: one detail request per
    object, in order; an object with valid details contributes its tool
    definition, any other object is skipped.  Gives the definitions, the
    skipped objects and the database after the last request. *)
Fixpoint discovered (rawObjects : list RawSchemaObject) (w : World)
    : list IntrospectedToolDefinition * list RawSchemaObject * World :=
  match rawObjects with
  | [] => ([], [], w)
  | obj :: rest =>
      let r := client_rpc "rpc_get_object_details" (detailsRequest obj) w in
      let d := discovered rest r.2 in
      match validDetails r.1 with
      | Some details => (transformToToolDefinition details :: d.1.1, d.1.2, d.2)
      | None => (d.1.1, obj :: d.1.2, d.2)
      end
  end.

(** The warning [introspectSchema] prints for a skipped object. *)
Definition skipWarning (obj : RawSchemaObject) : LogEntry :=
  {| level := WARN;
     text := "Could not fetch or parse details for " ++ ObjectType_text (so_object_type obj)
               ++ " " ++ so_object_name obj ++ ", skipping." |}.

(** A value with every BigInt in it replaced by its decimal string. *)
Fixpoint bigintsAsStrings (v : JSValue Num) : JSValue Num :=
  match v with
  | JSBigInt z => JSString (BigInt_toString z)
  | JSArray xs => JSArray (List.map bigintsAsStrings xs)
  | JSObject fields => JSObject (List.map (fun kv => (kv.1, bigintsAsStrings kv.2)) fields)
  | _ => v
  end.

(** The replacer of [JSON.stringify(value, null, 2)]: none. *)
Definition noReplacer (value : JSValue Num) : JSValue Num := value.

End Reference.

(** The diagnostic [registerTools] prints for a definition it could not
    register. *)
Definition registrationFailure (definition : IntrospectedToolDefinition) : LogEntry :=
  {| level := ERROR;
     text := "Failed to define or register tool " ++ toolName definition ++ ":" |}.

(** The first definition of a list that carries a given public name. *)
Definition firstNamed (publicName : string) (defs : list IntrospectedToolDefinition)
    : option IntrospectedToolDefinition :=
  List.find (fun d => String.eqb (toolName d) publicName) defs.

(** A state with further console entries. *)
Definition logged {World} (st : State World) (entries : list LogEntry) : State World :=
  {| db := db st; console := (console st ++ entries)%list |}.

(** The first console entry of [callRpc]. *)
Definition callingEntry (this : SupabaseClientWrapper) (f : string) : LogEntry :=
  {| level := LOG; text := "Calling RPC: " ++ schema this ++ "." ++ f ++ " with params:" |}.

(** The errors [introspectSchema] prints when the object list cannot be
    had: the result does not parse, or the call fails. *)
Definition parseFailure : LogEntry :=
  {| level := ERROR; text := "Failed to parse result from rpc_get_schema_objects:" |}.

Definition fetchFailure : LogEntry :=
  {| level := ERROR; text := "Failed to fetch schema objects via RPC:" |}.

Definition listingErrors : list LogEntry := [parseFailure; fetchFailure].

Definition startEntry : LogEntry :=
  {| level := LOG; text := "Starting schema introspection..." |}.

(** The type families of the mapping table, by the names [mapPgTypeToZod]
    knows them under. *)
Definition documentedTypes : list (string * ZodType) :=
  [("text", ZodString); ("varchar", ZodString); ("char", ZodString); ("name", ZodString);
   ("bpchar", ZodString);
   ("int", ZodNumberInt); ("integer", ZodNumberInt); ("int4", ZodNumberInt);
   ("smallint", ZodNumberInt); ("serial", ZodNumberInt); ("smallserial", ZodNumberInt);
   ("bigint", ZodBigInt); ("bigserial", ZodBigInt); ("int8", ZodBigInt);
   ("numeric", ZodStringRegex "^-?\d+(\.\d+)?$" "Invalid numeric string");
   ("decimal", ZodStringRegex "^-?\d+(\.\d+)?$" "Invalid numeric string");
   ("real", ZodNumber); ("float4", ZodNumber); ("double precision", ZodNumber);
   ("float8", ZodNumber);
   ("boolean", ZodBoolean); ("bool", ZodBoolean);
   ("uuid", ZodStringUuid);
   ("date", ZodStringDate "Invalid date string, expected YYYY-MM-DD");
   ("timestamp", ZodStringDatetime "Invalid timestamp string");
   ("timestamptz", ZodStringDatetime "Invalid timestamp string");
   ("json", ZodAny); ("jsonb", ZodAny);
   ("bytea", ZodString)].

(** The warning for a type name without a case of its own. *)
Definition unknownTypeWarning (elementType : string) : LogEntry :=
  {| level := WARN;
     text := "Unknown PostgreSQL element type " ++ dquote ++ elementType ++ dquote
               ++ ", mapping to z.any()." |}.

(** The payload [rpc_get_object_details] builds for a function, with the
    parameters given as (name, type, position). *)
Definition functionPayload {Num} (n : string) (c : JSValue Num)
    (params : list (string * string * Num)) (returnType : string) (returnsSet : bool)
    : JSValue Num :=
  JSObject [("object_name", JSString n);
            ("object_type", JSString "FUNCTION");
            ("comment", c);
            ("parameters",
             JSArray (List.map (fun p => JSObject [("parameter_name", JSString p.1.1);
                                                   ("data_type", JSString p.1.2);
                                                   ("position", JSNumber p.2)]) params));
            ("return_type", JSString returnType);
            ("returns_set", JSBool returnsSet)].

(** What [registerTool] stores for a definition. *)
Definition registration (definition : IntrospectedToolDefinition)
    (shape : gmap string ZodType) : RegisteredTool :=
  {| rt_description := truthyDescription (td_description definition);
     rt_inputSchema := shape;
     rt_definition := definition |}.

(** A completion that is a result: a text or [undefined]. *)
Definition settled (c : Completion) : Prop :=
  match c with
  | Text _ | Undefined => True
  | _ => False
  end.

(** The console entries of a handler run. *)
Definition invokedEntry (definition : IntrospectedToolDefinition) : LogEntry :=
  {| level := LOG; text := "Tool handler invoked: " ++ toolName definition ++ " with args:" |}.

Definition executedEntry (definition : IntrospectedToolDefinition) : LogEntry :=
  {| level := LOG; text := "Tool " ++ toolName definition ++ " executed successfully." |}.

Definition successPayload (contentItemText : string) : CallToolResult :=
  {| isError := false; content := [{| tc_type := "text"; tc_text := contentItemText |}] |}.

(** ** Further scripted databases and definitions *)

(** A function payload with nothing but the common fields. *)
Definition barePayload : list (string * JSValue Z) :=
  [("object_name", JSString "ping"); ("object_type", JSString "FUNCTION");
   ("comment", JSNull)].

Definition bareDb : Mock.Db :=
  {| Mock.objects_reply := Settled (Mock.listing [("ping", "FUNCTION")]) None;
     Mock.details_reply := fun _ => Settled (JSObject barePayload) None;
     Mock.call_reply := fun _ => Settled JSNull None;
     Mock.view_reply := fun _ => Settled (JSArray []) None;
     Mock.requests := [] |}.

Definition pingObject : RawSchemaObject :=
  {| so_object_name := "ping"; so_object_type := FUNCTION; so_comment := None |}.

(** A database with no objects: every call answers [null], every view is
    empty. *)
Definition idleDb : Mock.Db :=
  {| Mock.objects_reply := Settled (JSArray []) None;
     Mock.details_reply := fun _ => Settled JSNull None;
     Mock.call_reply := fun _ => Settled JSNull None;
     Mock.view_reply := fun _ => Settled (JSArray []) None;
     Mock.requests := [] |}.

(** A function whose public name collides with the view's:
    [active__user_profiles] and [active_user_profiles] both give
    [activeUserProfiles]. *)
Definition collidingFunction : IntrospectedToolDefinition :=
  {| toolName := camelCase "active__user_profiles"; pgName := "active__user_profiles";
     type := FUNCTION; td_description := None; td_parameters := [];
     pgReturnType := Some "int8"; pgReturnsSet := Some false; td_columns := [] |}.

(** ** Reference definitions for the type mapping *)

(** The array marker of a type name, and the name without it. *)
Definition isArrayType (pgType : string) : bool :=
  JsString.startsWith pgType "_" || JsString.endsWith pgType "[]".

Definition elementTypeOf (pgType : string) : string :=
  if isArrayType pgType then
    if JsString.startsWith pgType "_" then JsString.substring1 pgType
    else JsString.slice0m2 pgType
  else pgType.

Definition normalizeTypeName (elementType : string) : string :=
  JsString.removeSpaces (JsString.toLowerCase elementType).

(** The schema of a normalized element type name in [documentedTypes]. *)
Definition lookupType (normalized : string) : option ZodType :=
  snd <$> List.find (fun entry => String.eqb normalized (normalizeTypeName entry.1))
            documentedTypes.

(** The schema of an element type, with the warnings it costs. *)
Definition mapElementType (elementType : string) : ZodType * list LogEntry :=
  match lookupType (normalizeTypeName elementType) with
  | Some baseType => (baseType, [])
  | None => (ZodAny, [unknownTypeWarning elementType])
  end.

Definition wrapType (isArray isNullable : bool) (baseType : ZodType) : ZodType :=
  let finalType := if isArray then ZodArray baseType else baseType in
  if isNullable then ZodNullable finalType else finalType.

(** A schema that is no array, nullable or described wrapper. *)
Definition isBaseType (z : ZodType) : bool :=
  match z with
  | ZodArray _ | ZodNullable _ | ZodDescribed _ _ => false
  | _ => true
  end.

(** The schema [generateInputSchemaShape] stores for a parameter. *)
Definition parameterSchema (p : IntrospectedParameter) : ZodType :=
  describeIfTruthy (description p)
    (wrapType (isArrayType (pgType p)) false (mapElementType (elementTypeOf (pgType p))).1).

(** A function with the parameters [p_a] and [p__a], which share the public
    name [pA]. *)
Definition sharedNameFunction : IntrospectedToolDefinition :=
  {| toolName := "merge"; pgName := "merge"; type := FUNCTION; td_description := None;
     td_parameters :=
       [{| name := "p_a"; toolParamName := camelCase "p_a"; pgType := "int4";
           description := None |};
        {| name := "p__a"; toolParamName := camelCase "p__a"; pgType := "text";
           description := None |}];
     pgReturnType := Some "int4"; pgReturnsSet := Some false; td_columns := [] |}.

(** ** Reference definitions for the handler *)

Definition errorPayload (errorMessage : string) : CallToolResult :=
  {| isError := true; content := [{| tc_type := "text"; tc_text := errorMessage |}] |}.

(** The message of the error payload for a thrown value. *)
Definition errorMessageOf (definition : IntrospectedToolDefinition) (error : Thrown) : string :=
  match error with
  | ErrorObj message => "Tool execution failed: " ++ message
  | NonError => "An unknown error occurred during tool execution: " ++ toolName definition
  end.

Definition errorEntry (definition : IntrospectedToolDefinition) : LogEntry :=
  {| level := ERROR; text := "Error executing tool " ++ toolName definition ++ ":" |}.

(** The first console entry of [selectFromView]. *)
Definition selectingEntry (this : SupabaseClientWrapper) (viewName : string) : LogEntry :=
  {| level := LOG; text := "Selecting * from view: " ++ schema this ++ "." ++ viewName |}.

(** [data ?? []] *)
Definition orEmptyArray {Num} (data : JSValue Num) : JSValue Num :=
  match data with
  | JSUndefined | JSNull => JSArray []
  | _ => data
  end.

(** ** Reference definitions for registration *)

(** The input shape of a parameter list, as a fold. *)
Definition inputShapeOf (parameters : list IntrospectedParameter) : gmap string ZodType :=
  foldl (fun schemaShape p => js_set (toolParamName p) (parameterSchema p) schemaShape)
    ∅ parameters.

(** The tool [registerTool] hands to the server for a definition. *)
Definition registeredFor (definition : IntrospectedToolDefinition) : RegisteredTool :=
  registration definition
    (match type definition with
     | FUNCTION => inputShapeOf (td_parameters definition)
     | VIEW => ∅
     end).

(** ** Reference definitions for discovery *)

(** The payload [rpc_get_object_details] builds for a view, with the columns
    given as (name, type, nullable, comment). *)
Definition viewPayload {Num} (n : string) (c : JSValue Num)
    (cols : list (string * string * bool * option string)) : JSValue Num :=
  JSObject [("object_name", JSString n);
            ("object_type", JSString "VIEW");
            ("comment", c);
            ("columns",
             JSArray (List.map (fun col =>
                                  JSObject [("column_name", JSString col.1.1.1);
                                            ("data_type", JSString col.1.1.2);
                                            ("is_nullable", JSBool col.1.2);
                                            ("comment",
                                             match col.2 with
                                             | Some text => JSString text
                                             | None => JSNull
                                             end)]) cols))].

(** The requests of a discovery pass over a list of objects. *)
Definition detailRequests (rawObjects : list RawSchemaObject)
    : list (string * gmap string (JSValue Z)) :=
  List.map (fun obj => ("rpc_get_object_details", detailsRequest obj)) rawObjects.

(** A listing whose second entry lacks the [comment] key. *)
Definition flawedListingDb : Mock.Db :=
  {| Mock.objects_reply :=
       Settled (JSArray [JSObject [("object_name", JSString "active_user_profiles");
                                   ("object_type", JSString "VIEW");
                                   ("comment", JSNull)];
                         JSObject [("object_name", JSString "add_note_to_user");
                                   ("object_type", JSString "FUNCTION")]]) None;
     Mock.details_reply := fun n => Settled (Mock.viewDetails n [("id", "uuid")]) None;
     Mock.call_reply := fun _ => Settled JSNull None;
     Mock.view_reply := fun _ => Settled (JSArray []) None;
     Mock.requests := [] |}.

(** ** config.ts and server.ts: the configuration and [createMcpServer] *)

Inductive Transport : Type := http | stdio.

Record AppConfig (Num : Type) : Type := {
  supabaseUrl : string;
  supabaseServiceKey : string;
  schemaToScan : string;
  transport : Transport;
  httpPort : Num
}.

Arguments supabaseUrl {Num} a.
Arguments supabaseServiceKey {Num} a.
Arguments schemaToScan {Num} a.
Arguments transport {Num} a.
Arguments httpPort {Num} a.
Arguments Build_AppConfig {Num} supabaseUrl supabaseServiceKey schemaToScan transport httpPort.

(** [new SupabaseClientWrapper(config)]: the guard on the credentials, then
    [createClient], which hands back the client the database state stands
    for. *)
Definition newSupabaseClientWrapper {Num World} (config : AppConfig Num)
    : M World SupabaseClientWrapper :=
  if String.eqb (supabaseUrl config) "" || String.eqb (supabaseServiceKey config) "" then
    throw (ErrorObj "Supabase URL and Service Key are required in the configuration.")
  else
    console_log ("Supabase client initialized for schema: " ++ schemaToScan config);;
    mret {| schema := schemaToScan config |}.

(** A tool of the finished server: one registered from a definition, or the
    hardcoded [getInfo]. *)
Inductive ServerTool : Type :=
| DiscoveredTool (tool : RegisteredTool)
| GetInfoTool.

(** Modelled from the spec: [server.tool("getInfo", ...)] on the registry the
    factory filled, with the rule of [McpServer_tool]: a taken name throws. *)
Definition McpServer_tool_getInfo {World} (server : gmap string RegisteredTool)
    : M World (gmap string ServerTool) :=
  match server !! "getInfo" with
  | Some _ => throw (ErrorObj ("Tool " ++ "getInfo" ++ " is already registered"))
  | None => mret (<["getInfo" := GetInfoTool]> (DiscoveredTool <$> server))
  end.

Section CreateServer.
Context {Num World : Type} `{!JSNumberOps Num} `{!SupabaseJs Num World}.

Definition createMcpServer (config : AppConfig Num) : M World (gmap string ServerTool) :=
  console_log "Creating MCP Server instance...";;
  console_log "McpServer core initialized with tools capability.";;
  tryCatch
    (console_log "Initializing Supabase client...";;
     supabase ← newSupabaseClientWrapper config;
     console_log "Supabase client initialized successfully.";;
     console_log "Starting database schema introspection...";;
     toolDefinitions ← introspectSchema supabase;
     console_log ("Schema introspection finished. Found "
                    ++ pretty (length toolDefinitions) ++ " potential tools.");;
     console_log "Registering tools with MCP server...";;
     server ← registerTools toolDefinitions ∅;
     console_log "Tools registered successfully.";;
     console_log "Registering hardcoded test tool 'getInfo'...";;
     server' ← McpServer_tool_getInfo server;
     console_log "Hardcoded test tool 'getInfo' registered.";;
     console_log "MCP Server instance created and configured successfully.";;
     mret server')
    (fun error =>
       console_error "Failed to create and configure MCP Server:";;
       match error with
       | ErrorObj message => throw (ErrorObj ("MCP Server setup failed: " ++ message))
       | NonError => throw (ErrorObj "An unknown error occurred during MCP Server setup.")
       end).


End CreateServer.

Definition sampleConfig : AppConfig Z :=
  {| supabaseUrl := "https://example.supabase.co"; supabaseServiceKey := "service-key";
     schemaToScan := "mcp_tools"; transport := stdio; httpPort := 3123%Z |}.

Definition keylessConfig : AppConfig Z :=
  {| supabaseUrl := "https://example.supabase.co"; supabaseServiceKey := "";
     schemaToScan := "mcp_tools"; transport := http; httpPort := 3123%Z |}.

(** A catalog with the single function [get_info]. *)
Definition getInfoDb : Mock.Db :=
  {| Mock.objects_reply := Settled (Mock.listing [("get_info", "FUNCTION")]) None;
     Mock.details_reply := fun n => Settled (Mock.functionDetails n []) None;
     Mock.call_reply := fun _ => Settled JSNull None;
     Mock.view_reply := fun _ => Settled (JSArray []) None;
     Mock.requests := [] |}.

(** ** config.ts: the schema of the configuration file

    What zod asks of the JavaScript runtime is taken as given: whether a
    string is a URL ([z.string().url()]), whether a number is positive, and
    the number 3123. *)

Class ConfigRuntime (Num : Type) : Type := {
  isUrl : string -> bool;
  Number_isPositive : Num -> bool;
  Number_3123 : Num
}.

Section Config.
Context {Num : Type} `{!JSNumberOps Num} `{!ConfigRuntime Num}.

(** [inner.default(d)]: [undefined] is replaced by the default, which is then
    parsed like any other value. *)
Definition z_default {A} (d : JSValue Num) (inner : JSValue Num -> option A)
    (v : JSValue Num) : option A :=
  match v with
  | JSUndefined => inner d
  | _ => inner v
  end.

(** [z.string().url(...)] *)
Definition z_string_url (v : JSValue Num) : option string :=
  s ← z_string v; if isUrl s then Some s else None.

(** [z.string().min(1, ...)] *)
Definition z_string_min1 (v : JSValue Num) : option string :=
  s ← z_string v; if (1 <=? String.length s)%nat then Some s else None.

(** [z.enum(["http", "stdio"])] *)
Definition z_enum_transport (v : JSValue Num) : option Transport :=
  match v with
  | JSString s =>
      if String.eqb s "http" then Some http
      else if String.eqb s "stdio" then Some stdio
      else None
  | _ => None
  end.

(** [z.number().int().positive()] *)
Definition z_number_int_positive (v : JSValue Num) : option Num :=
  n ← z_number_int v; if Number_isPositive n then Some n else None.

Definition configKeys : list string :=
  ["supabaseUrl"; "supabaseServiceKey"; "schemaToScan"; "transport"; "httpPort"].

(** [configSchema]: the object schema, [.strict()]: a key outside the shape
    is an issue. *)
Definition configSchema (v : JSValue Num) : option (AppConfig Num) :=
  match v with
  | JSObject o =>
      if forallb (fun kv => JsString.oneOf kv.1 configKeys) o then
        url ← z_string_url (prop "supabaseUrl" o);
        key ← z_string_min1 (prop "supabaseServiceKey" o);
        sch ← z_default (JSString "mcp_tools") z_string (prop "schemaToScan" o);
        tr ← z_default (JSString "http") z_enum_transport (prop "transport" o);
        port ← z_default (JSNumber Number_3123) z_number_int_positive (prop "httpPort" o);
        Some {| supabaseUrl := url; supabaseServiceKey := key; schemaToScan := sch;
                transport := tr; httpPort := port |}
      else None
  | _ => None
  end.

End Config.

(** A runtime over [Z] for the examples: a URL is a string that starts with
    [https://] or [http://]. *)
#[global] Instance Z_config : ConfigRuntime Z :=
  {| isUrl := fun s => JsString.startsWith s "https://" || JsString.startsWith s "http://";
     Number_isPositive := fun n => (0 <? n)%Z;
     Number_3123 := 3123%Z |}.

(** A configuration file with the two required fields only. *)
Definition minimalConfigFile : list (string * JSValue Z) :=
  [("supabaseUrl", JSString "https://example.supabase.co");
   ("supabaseServiceKey", JSString "service-key")].

(** The configuration it stands for. *)
Definition minimalConfig : AppConfig Z :=
  {| supabaseUrl := "https://example.supabase.co"; supabaseServiceKey := "service-key";
     schemaToScan := "mcp_tools"; transport := http; httpPort := 3123%Z |}.

(** * Proofs *)

(** ** Running the effects *)

Section Effects.
Context {World : Type}.

Lemma logged_nil (st : State World) : logged st [] = st.
Proof. destruct st; unfold logged; simpl. by rewrite app_nil_r. Qed.

Lemma logged_logged (st : State World) xs ys :
  logged (logged st xs) ys = logged st (xs ++ ys)%list.
Proof. unfold logged; simpl. by rewrite app_assoc. Qed.

Lemma console_write_run l msg (st : State World) :
  console_write l msg st = (inr tt, logged st [{| level := l; text := msg |}]).
Proof. reflexivity. Qed.

Lemma bind_run {A B} (m : M World A) (k : A -> M World B) st :
  (m ≫= k) st = match m st with
                | (inl e, st') => (inl e, st')
                | (inr a, st') => k a st'
                end.
Proof. reflexivity. Qed.

End Effects.

(** ** supabase.ts and introspection.ts, run *)

Section IntrospectionProofs.
Context {Num World : Type} `{!JSNumberOps Num} `{!SupabaseJs Num World}.

Lemma callRpc_run this f params (st : State World) :
  callRpc this f params st =
    let r := client_rpc f params (db st) in
    match r.1 with
    | Rejected e =>
        (inl e, logged {| db := r.2; console := console st |} [callingEntry this f])
    | Settled data (Some error) =>
        (inl (ErrorObj ("Supabase RPC call failed for " ++ f ++ ": " ++ pe_message error)),
         logged {| db := r.2; console := console st |}
           [callingEntry this f;
            {| level := ERROR;
               text := "RPC call to " ++ schema this ++ "." ++ f ++ " failed:" |}])
    | Settled data None =>
        (inr data,
         logged {| db := r.2; console := console st |}
           [callingEntry this f;
            {| level := LOG; text := "RPC " ++ schema this ++ "." ++ f ++ " successful." |}])
    end.
Proof.
  unfold callRpc, mbind, M_bind, mret, M_ret, console_log, console_error, console_write,
    await_client, throw, logged.
  simpl.
  destruct (client_rpc f params (db st)) as [[e | data [error |]] w]; simpl.
  - reflexivity.
  - by rewrite <- app_assoc.
  - by rewrite <- app_assoc.
Qed.

Lemma fetchObjectDetails_run this obj (st : State World) :
  let r := client_rpc "rpc_get_object_details" (detailsRequest obj) (db st) in
  exists entries,
    fetchObjectDetails this (so_object_name obj) (so_object_type obj) st =
      (inr (validDetails r.1), logged {| db := r.2; console := console st |} entries).
Proof.
  intros r. unfold fetchObjectDetails, tryCatch.
  rewrite bind_run, callRpc_run. fold (@detailsRequest Num obj). fold r.
  clearbody r. destruct r as [[e | data [error |]] w]; simpl.
  - eexists. unfold mbind, M_bind, console_error. rewrite console_write_run.
    rewrite logged_logged. reflexivity.
  - eexists. unfold mbind, M_bind, console_error. rewrite console_write_run.
    rewrite logged_logged. reflexivity.
  - destruct (not_an_object data) eqn:Hobj.
    + eexists. unfold mbind, M_bind, console_warn. rewrite console_write_run.
      rewrite logged_logged. unfold mret, M_ret.
      replace (objectDetailsSchema data) with (@None (RawObjectDetails Num)); [reflexivity |].
      by destruct data.
    + destruct (objectDetailsSchema data) as [details |].
      * eexists. reflexivity.
      * eexists. unfold mbind, M_bind, console_error. rewrite console_write_run.
        rewrite logged_logged. reflexivity.
Qed.

Lemma introspect_loop_run this rawObjects :
  forall acc (st : State World),
    let d := discovered rawObjects (db st) in
    exists entries,
      introspect_loop this rawObjects acc st =
        (inr (acc ++ d.1.1)%list, logged {| db := d.2; console := console st |} entries)
      /\ (forall obj, obj ∈ d.1.2 -> skipWarning obj ∈ entries).
Proof.
  induction rawObjects as [| obj rest IH]; intros acc st d.
  - exists []. split.
    + simpl. rewrite app_nil_r. unfold mret, M_ret. f_equal.
      destruct st; unfold logged; simpl. by rewrite app_nil_r.
    + subst d; simpl. intros obj Hin. by apply elem_of_nil in Hin.
  - subst d. cbn [introspect_loop discovered].
    set (r := client_rpc "rpc_get_object_details" (detailsRequest obj) (db st)).
    rewrite bind_run. unfold tryCatch at 1.
    rewrite bind_run. unfold console_log at 1. rewrite console_write_run.
    rewrite bind_run.
    destruct (fetchObjectDetails_run this obj
                (logged st [{| level := LOG;
                               text := "Fetching details for "
                                         ++ ObjectType_text (so_object_type obj)
                                         ++ ": " ++ so_object_name obj |}]))
      as [entries Hfetch].
    cbn [db logged] in Hfetch. fold r in Hfetch. rewrite Hfetch.
    clearbody r. destruct r as [outcome w]. cbn [fst snd].
    destruct (validDetails outcome) as [details |].
    + cbn [mret M_ret].
      match goal with
      | |- context [introspect_loop this rest ?acc' ?st'] =>
          destruct (IH acc' st') as [entries' [Hrun Hwarn]]
      end.
      rewrite Hrun. cbn [db logged console fst snd] in *.
      exists ([{| level := LOG;
                  text := "Fetching details for " ++ ObjectType_text (so_object_type obj)
                            ++ ": " ++ so_object_name obj |}] ++ entries ++ entries')%list.
      split.
      * unfold logged. simpl. by rewrite <- !app_assoc.
      * intros o Hin. apply elem_of_app. right.
        apply elem_of_app. right. by apply Hwarn.
    + rewrite bind_run. unfold console_warn. rewrite console_write_run.
      cbn [mret M_ret].
      match goal with
      | |- context [introspect_loop this rest ?acc' ?st'] =>
          destruct (IH acc' st') as [entries' [Hrun Hwarn]]
      end.
      rewrite Hrun. cbn [db logged console fst snd] in *.
      exists ([{| level := LOG;
                  text := "Fetching details for " ++ ObjectType_text (so_object_type obj)
                            ++ ": " ++ so_object_name obj |}] ++ entries
                ++ [skipWarning obj] ++ entries')%list.
      split.
      * unfold logged. simpl. by rewrite <- !app_assoc.
      * intros o Hin. apply elem_of_cons in Hin as [-> | Hin].
        -- apply elem_of_app. right. apply elem_of_app. right.
           apply elem_of_app. left. apply elem_of_cons. by left.
        -- apply elem_of_app. right. apply elem_of_app. right.
           apply elem_of_app. right. by apply Hwarn.
Qed.

Lemma introspectSchema_unfold this (st : State World) :
  introspectSchema this st =
    match callRpc this "rpc_get_schema_objects" ∅ (logged st [startEntry]) with
    | (inl _, st') => (inr [], logged st' [fetchFailure])
    | (inr result, st') =>
        match z_array schemaObjectSchema result with
        | None => (inr [], logged st' [parseFailure])
        | Some rawObjects =>
            match introspect_loop this rawObjects []
                    (logged st' [{| level := LOG;
                                    text := "Found " ++ pretty (length rawObjects)
                                              ++ " objects via RPC." |}])
            with
            | (inl e, st'') => (inl e, st'')
            | (inr defs, st'') =>
                (inr defs,
                 logged st'' [{| level := LOG;
                                 text := "Schema introspection completed. Found "
                                           ++ pretty (length defs)
                                           ++ " potential tools." |}])
            end
        end
    end.
Proof.
  unfold introspectSchema, listSchemaObjects, tryCatch, mbind, M_bind,
    console_log, console_error, mret, M_ret.
  rewrite !console_write_run. fold startEntry.
  destruct (callRpc this "rpc_get_schema_objects" ∅ _) as [[e | result] st']; [reflexivity |].
  destruct (z_array schemaObjectSchema result) as [rawObjects |]; [| reflexivity].
  rewrite !console_write_run.
  destruct (introspect_loop this rawObjects [] _) as [[e | defs] st'']; reflexivity.
Qed.

Lemma introspectSchema_run this (st : State World) :
  let r := client_rpc "rpc_get_schema_objects" ∅ (db st) in
  exists entries,
    match parsedListing r.1 with
    | None =>
        introspectSchema this st =
          (inr [], logged {| db := r.2; console := console st |} entries)
        /\ (exists e, e ∈ listingErrors /\ e ∈ entries)
    | Some rawObjects =>
        let d := discovered rawObjects r.2 in
        introspectSchema this st =
          (inr d.1.1, logged {| db := d.2; console := console st |} entries)
        /\ (forall obj, obj ∈ d.1.2 -> skipWarning obj ∈ entries)
    end.
Proof.
  intros r. subst r. rewrite introspectSchema_unfold.
  rewrite callRpc_run. cbn [db logged console].
  destruct (client_rpc "rpc_get_schema_objects" ∅ (db st)) as [[e | data [error |]] w];
    cbn [fst snd parsedListing].
  - eexists. split.
    + unfold logged. cbn [db console]. rewrite <- !app_assoc. reflexivity.
    + eexists. split; [| apply elem_of_app; right; apply elem_of_app; right;
                         apply elem_of_cons; by left].
      unfold listingErrors. apply elem_of_cons. right. apply elem_of_cons. by left.
  - eexists. split.
    + unfold logged. cbn [db console]. rewrite <- !app_assoc. reflexivity.
    + eexists. split; [| apply elem_of_app; right; apply elem_of_app; right;
                         apply elem_of_cons; by left].
      unfold listingErrors. apply elem_of_cons. right. apply elem_of_cons. by left.
  - destruct (z_array schemaObjectSchema data) as [rawObjects |].
    + match goal with
      | |- context [introspect_loop this rawObjects ?acc' ?st'] =>
          destruct (introspect_loop_run this rawObjects acc' st') as [entries' [Hrun Hwarn]]
      end.
      rewrite Hrun. cbn [db logged console fst snd app] in *.
      eexists. split.
      * unfold logged. cbn [db console]. rewrite <- !app_assoc. reflexivity.
      * intros obj Hin. apply elem_of_app. right. apply elem_of_app. right.
        apply elem_of_app. right. apply elem_of_app. left. by apply Hwarn.
    + eexists. split.
      * unfold logged. cbn [db console]. rewrite <- !app_assoc. reflexivity.
      * eexists. split; [| apply elem_of_app; right; apply elem_of_app; right;
                           apply elem_of_cons; by left].
        unfold listingErrors. apply elem_of_cons. by left.
Qed.
End IntrospectionProofs.

(** ** Discovery: the object list and the per-object details *)

Section Discovery.
Context {Num World : Type} `{!JSNumberOps Num} `{!SupabaseJs Num World}.

(** C1, as the code has it: when the [rpc_get_schema_objects] call fails
    (the promise rejects or the result carries an error) or its data does not
    parse as a list of schema objects, [introspectSchema] does not throw: it
    prints an error, makes no further request and returns the empty list of
    tool definitions. *)
Theorem introspectSchema_listing_failure_gives_empty_list
    (this : SupabaseClientWrapper) (st : State World) :
  parsedListing (client_rpc "rpc_get_schema_objects" ∅ (db st)).1 = None ->
  exists st',
    introspectSchema this st = (inr [], st')
    /\ db st' = (client_rpc "rpc_get_schema_objects" ∅ (db st)).2
    /\ exists e, e ∈ listingErrors /\ e ∈ console st'.
Proof.
  intros Hfail.
  destruct (introspectSchema_run this st) as [entries Hrun].
  cbv zeta in Hrun. rewrite Hfail in Hrun.
  destruct Hrun as [Hrun [e [Herr Hin]]].
  eexists. split; [exact Hrun |]. split; [reflexivity |].
  exists e. split; [exact Herr |].
  unfold logged. cbn [console]. apply elem_of_app. by right.
Qed.

(** C6: [introspectSchema] never throws.  When the object list was obtained,
    it returns exactly the tool definitions of the objects whose detail
    request resolved to valid details, in listing order; every other object
    (its request failed, or the shape did not validate) is skipped with the
    warning of [skipWarning], and no object is lost otherwise. *)
Theorem introspectSchema_skips_only_the_failing_objects
    (this : SupabaseClientWrapper) (st : State World) :
  exists defs st',
    introspectSchema this st = (inr defs, st')
    /\ forall rawObjects,
         parsedListing (client_rpc "rpc_get_schema_objects" ∅ (db st)).1 = Some rawObjects ->
         let d := discovered rawObjects (client_rpc "rpc_get_schema_objects" ∅ (db st)).2 in
         defs = d.1.1
         /\ db st' = d.2
         /\ (forall obj, obj ∈ d.1.2 -> skipWarning obj ∈ console st')
         /\ length d.1.1 + length d.1.2 = length rawObjects.
Proof.
  destruct (introspectSchema_run this st) as [entries Hrun].
  cbv zeta in Hrun.
  destruct (parsedListing (client_rpc "rpc_get_schema_objects" ∅ (db st)).1)
    as [rawObjects |] eqn:Hlist.
  - destruct Hrun as [Hrun Hwarn].
    eexists. eexists. split; [exact Hrun |].
    intros objs Hobjs d. injection Hobjs as <-. subst d.
    split; [reflexivity |]. split; [reflexivity |]. split.
    + intros obj Hin. unfold logged. cbn [console].
      apply elem_of_app. right. by apply Hwarn.
    + clear. generalize (client_rpc "rpc_get_schema_objects" ∅ (db st)).2.
      induction rawObjects as [| obj rest IH]; intros w; [reflexivity |].
      cbn [discovered].
      specialize (IH (client_rpc "rpc_get_object_details" (detailsRequest obj) w).2).
      destruct (validDetails (client_rpc "rpc_get_object_details" (detailsRequest obj) w).1);
        cbn [fst snd length]; lia.
  - destruct Hrun as [Hrun _].
    eexists. eexists. split; [exact Hrun |].
    intros objs Hobjs. discriminate.
Qed.

End Discovery.

(** C1, the claim as stated fails: with the catalog unreachable the listing
    call fails, and the caller of [introspectSchema] is handed a list (the
    empty one), not a failure. *)
Lemma introspectSchema_unreachable_returns_list :
  (client_rpc "rpc_get_schema_objects" ∅ Mock.unreachable).1
    = Mock.failure "connection refused"
  /\ (introspectSchema Mock.this (Mock.start Mock.unreachable)).1 = inr []
  /\ ~ (exists e, (introspectSchema Mock.this (Mock.start Mock.unreachable)).1 = inl e).
Proof.
  split; [reflexivity |]. split; [vm_compute; reflexivity |].
  intros [e He]. vm_compute in He. discriminate.
Qed.

(** The unreachable catalog satisfies the hypothesis of the theorem for C1. *)
Lemma introspectSchema_listing_failure_witness :
  exists st',
    introspectSchema Mock.this (Mock.start Mock.unreachable) = (inr [], st')
    /\ db st' = (client_rpc "rpc_get_schema_objects" ∅ (db (Mock.start Mock.unreachable))).2
    /\ exists e, e ∈ listingErrors /\ e ∈ console st'.
Proof.
  apply (introspectSchema_listing_failure_gives_empty_list Mock.this
           (Mock.start Mock.unreachable)).
  reflexivity.
Defined.

(** The theorem for C6 at the database with one malformed object. *)
Lemma introspectSchema_one_malformed_witness :
  exists defs st',
    introspectSchema Mock.this (Mock.start Mock.oneMalformed) = (inr defs, st')
    /\ forall rawObjects,
         parsedListing (client_rpc "rpc_get_schema_objects" ∅
                          (db (Mock.start Mock.oneMalformed))).1 = Some rawObjects ->
         let d := discovered rawObjects
                    (client_rpc "rpc_get_schema_objects" ∅
                       (db (Mock.start Mock.oneMalformed))).2 in
         defs = d.1.1
         /\ db st' = d.2
         /\ (forall obj, obj ∈ d.1.2 -> skipWarning obj ∈ console st')
         /\ length d.1.1 + length d.1.2 = length rawObjects.
Proof.
  exact (introspectSchema_skips_only_the_failing_objects Mock.this
           (Mock.start Mock.oneMalformed)).
Defined.

(** Three listed objects, the second malformed: the two others become tools. *)
Example introspectSchema_one_malformed_of_three :
  List.map toolName
    (default [] (match (introspectSchema Mock.this (Mock.start Mock.oneMalformed)).1 with
                 | inr defs => Some defs
                 | inl _ => None
                 end))
  = ["activeUserProfiles"; "addNoteToUser"].
Proof. vm_compute. reflexivity. Qed.

(** ** The type mapping *)

Section TypeMappingProofs.
Context {World : Type}.

(** C2, where the code departs from the table: [int2], the catalog's own
    name of the two-byte integer type, has no case in [mapPgTypeToZod]; it
    takes the default branch and maps to [z.any()] with the unknown-type
    warning, not to the integer schema. *)
Theorem mapPgTypeToZod_int2_is_any (st : State World) :
  mapPgTypeToZod "int2" false st = (inr ZodAny, logged st [unknownTypeWarning "int2"])
  /\ mapPgTypeToZod "int4" false st = (inr ZodNumberInt, st)
  /\ mapPgTypeToZod "smallint" false st = (inr ZodNumberInt, st).
Proof. repeat split; reflexivity. Qed.

(** Every name the code has a case for maps to the schema of its family,
    without a warning; an array or a nullable column wraps that schema. *)
Lemma mapPgTypeToZod_documented (st : State World) :
  Forall (fun entry =>
            mapPgTypeToZod entry.1 false st = (inr entry.2, st)
            /\ mapPgTypeToZod ("_" ++ entry.1) false st = (inr (ZodArray entry.2), st)
            /\ mapPgTypeToZod (entry.1 ++ "[]") true st
               = (inr (ZodNullable (ZodArray entry.2)), st))
         documentedTypes.
Proof. unfold documentedTypes. repeat constructor. Qed.

(** [mapPgTypeToZod] never throws, whatever the type name. *)
Lemma mapPgTypeToZod_total pgType isNullable (st : State World) :
  exists t entries, mapPgTypeToZod pgType isNullable st = (inr t, logged st entries).
Proof.
  unfold mapPgTypeToZod, mbind, M_bind, mret, M_ret, console_warn.
  repeat match goal with
         | |- context [if JsString.oneOf ?s ?cases then _ else _] =>
             destruct (JsString.oneOf s cases)
         end;
    try (eexists; exists []; rewrite logged_nil; reflexivity).
  rewrite console_write_run. eexists. eexists. reflexivity.
Qed.

End TypeMappingProofs.

(** ** Public names *)

Section Names.

Lemma split_no_separator sep seg :
  JsString.contains sep seg = false -> JsString.split sep seg = [seg].
Proof.
  induction seg as [| c r IH]; [reflexivity |].
  cbn [JsString.contains JsString.split]. intros H.
  apply orb_false_iff in H as [Hc Hr].
  rewrite Hc, (IH Hr). reflexivity.
Qed.

Lemma split_segment sep seg r :
  JsString.contains sep seg = false ->
  JsString.split sep (seg ++ String sep r) = seg :: JsString.split sep r.
Proof.
  induction seg as [| c s IH]; intros H.
  - change (JsString.split sep (String sep r) = "" :: JsString.split sep r).
    cbn [JsString.split]. by rewrite Ascii.eqb_refl.
  - cbn [JsString.contains] in H. apply orb_false_iff in H as [Hc Hr].
    change (JsString.split sep (String c (s ++ String sep r))
            = String c s :: JsString.split sep r).
    cbn [JsString.split]. rewrite Hc, (IH Hr). reflexivity.
Qed.

Lemma split_join sep first rest :
  Forall (fun seg => JsString.contains sep seg = false) (first :: rest) ->
  JsString.split sep (JsString.join sep (first :: rest)) = first :: rest.
Proof.
  revert first. induction rest as [| seg rest IH]; intros first H.
  - apply split_no_separator. by inversion H.
  - inversion H as [| ? ? Hfirst Hrest]; subst.
    change (JsString.join sep (first :: seg :: rest))
      with (first ++ String sep (JsString.join sep (seg :: rest))).
    rewrite (split_segment _ _ _ Hfirst), (IH seg Hrest). reflexivity.
Qed.

(** C3: the public name of a tool is obtained from the catalog identifier by
    the naming rule.  For an identifier made of the segments [first], [rest]
    joined by underscores it is [first] in lower case followed by every
    further segment with its first letter capitalized and the other
    characters as they are; [active_user_profiles] gives [activeUserProfiles]
    and [add_note_to_user] gives [addNoteToUser]. *)
Theorem toolName_follows_naming_rule {Num : Type} :
  (forall (details : RawObjectDetails Num) first rest,
      Forall (fun seg => JsString.contains "_" seg = false) (first :: rest) ->
      object_name details = JsString.join "_" (first :: rest) ->
      toolName (transformToToolDefinition details)
      = JsString.toLowerCase first ++ JsString.concat (List.map capitalizeFirst rest))
  /\ (forall details : RawObjectDetails Num,
        object_name details = "active_user_profiles" ->
        toolName (transformToToolDefinition details) = "activeUserProfiles")
  /\ (forall details : RawObjectDetails Num,
        object_name details = "add_note_to_user" ->
        toolName (transformToToolDefinition details) = "addNoteToUser").
Proof.
  assert (Hname : forall details : RawObjectDetails Num,
             toolName (transformToToolDefinition details) = camelCase (object_name details)).
  { intros details. unfold transformToToolDefinition.
    destruct (object_type details), (parameters details), (columns details); reflexivity. }
  split; [| split].
  - intros details first rest Hsegs Hjoin.
    rewrite Hname, Hjoin. unfold camelCase. rewrite (split_join _ _ _ Hsegs). reflexivity.
  - intros details Hobj. rewrite Hname, Hobj. reflexivity.
  - intros details Hobj. rewrite Hname, Hobj. reflexivity.
Qed.

End Names.

(** ** Detail payloads of functions *)

Section FunctionPayloads.
Context {Num : Type} `{!JSNumberOps Num}.

Lemma parameters_validate (params : list (string * string * Num)) :
  Forall (fun p => Number_isInteger p.2 = true) params ->
  mapM parameterDetailSchema
    (List.map (fun p => JSObject [("parameter_name", JSString p.1.1);
                                  ("data_type", JSString p.1.2);
                                  ("position", JSNumber p.2)]) params)
  = Some (List.map (fun p => {| parameter_name := p.1.1; pd_data_type := p.1.2;
                                position := p.2 |}) params).
Proof.
  induction 1 as [| p rest Hint _ IH]; [reflexivity |].
  cbn [List.map mapM]. rewrite IH.
  unfold parameterDetailSchema at 1. cbn. rewrite Hint. reflexivity.
Qed.

(** C4, as the code has it: a function payload validates whatever integers
    its positions are (ascending or not, with or without gaps), and the
    parameters of the tool definition are the parameters of the payload in
    the order of the payload; the positions are not looked at. *)
Theorem function_parameters_follow_payload_order
    (n : string) (c : JSValue Num) (cm : option string)
    (params : list (string * string * Num)) (returnType : string) (returnsSet : bool) :
  Forall (fun p => Number_isInteger p.2 = true) params ->
  z_nullable z_string c = Some cm ->
  exists details,
    objectDetailsSchema (functionPayload n c params returnType returnsSet) = Some details
    /\ type (transformToToolDefinition details) = FUNCTION
    /\ td_parameters (transformToToolDefinition details)
       = List.map (fun p => {| name := p.1.1; toolParamName := camelCase p.1.1;
                               pgType := p.1.2; description := cm |}) params.
Proof.
  intros Hint Hc.
  unfold functionPayload, objectDetailsSchema. cbn [prop String.eqb Ascii.eqb Bool.eqb].
  cbn [z_string z_enum_object_type String.eqb Ascii.eqb Bool.eqb mbind option_bind].
  rewrite Hc. cbn [mbind option_bind].
  cbn [z_optional z_array z_string z_boolean fmap option_fmap option_map].
  rewrite (parameters_validate _ Hint). cbn [mbind option_bind fmap option_fmap option_map].
  eexists. split; [reflexivity |].
  unfold transformToToolDefinition. cbn. split; [reflexivity |].
  rewrite List.map_map. reflexivity.
Qed.

(** C10: a FUNCTION payload without the [parameters], [return_type] and
    [returns_set] keys (and with [columns] absent or well-formed) passes
    [objectDetailsSchema], [fetchObjectDetails] hands it on, and it becomes a
    tool definition with no parameters, no columns, and an undefined return
    type and set flag; its input schema is the empty object. *)
Theorem function_payload_without_signature_is_a_tool
    {World : Type} `{!SupabaseJs Num World}
    (this : SupabaseClientWrapper) (obj : RawSchemaObject) (st : State World)
    (o : list (string * JSValue Num)) (n : string) (cm : option string)
    (cols : option (list ColumnDetail)) :
  prop "object_name" o = JSString n ->
  prop "object_type" o = JSString "FUNCTION" ->
  z_nullable z_string (prop "comment" o) = Some cm ->
  z_optional (z_array columnDetailSchema) (prop "columns" o) = Some cols ->
  prop "parameters" o = JSUndefined ->
  prop "return_type" o = JSUndefined ->
  prop "returns_set" o = JSUndefined ->
  (client_rpc "rpc_get_object_details" (detailsRequest obj) (db st)).1
    = Settled (JSObject o) None ->
  exists details,
    objectDetailsSchema (JSObject o) = Some details
    /\ (fetchObjectDetails this (so_object_name obj) (so_object_type obj) st).1
       = inr (Some details)
    /\ transformToToolDefinition details
       = {| toolName := camelCase n; pgName := n; type := FUNCTION; td_description := cm;
            td_parameters := []; pgReturnType := None; pgReturnsSet := None;
            td_columns := [] |}
    /\ (generateInputSchemaShape (td_parameters (transformToToolDefinition details)) st).1
       = inr ∅.
Proof.
  intros Hname Htype Hcomment Hcols Hparams Hrt Hrs Hreply.
  assert (Hparse : objectDetailsSchema (JSObject o)
                   = Some {| object_name := n; object_type := FUNCTION; comment := cm;
                             columns := cols; parameters := None; return_type := None;
                             returns_set := None |}).
  { unfold objectDetailsSchema. rewrite Hname, Htype, Hcomment, Hcols, Hparams, Hrt, Hrs.
    reflexivity. }
  eexists. split; [exact Hparse |]. split; [| split].
  - destruct (fetchObjectDetails_run this obj st) as [entries Hrun].
    cbv zeta in Hrun. rewrite Hrun, Hreply. cbn [fst validDetails]. by rewrite Hparse.
  - unfold transformToToolDefinition. cbn. by destruct cols.
  - unfold transformToToolDefinition. cbn. by destruct cols.
Qed.

End FunctionPayloads.

(** C4, the claim as stated fails: the parameters fetched for [transfer] sit
    at positions 1 and 3, a gap, and introspection still turns the function
    into a tool, with both parameters, and reports no error for it. *)
Lemma introspectSchema_gap_in_positions_still_a_tool :
  (List.map position
     <$> (objectDetailsSchema
            (Mock.functionDetails "transfer"
               [("p_from", "uuid", 1%Z); ("p_amount", "numeric", 3%Z)]) ≫= parameters))
  = Some [1%Z; 3%Z]
  /\ (introspectSchema Mock.this (Mock.start Mock.gapped)).1
     = inr [{| toolName := "transfer"; pgName := "transfer"; type := FUNCTION;
               td_description := None;
               td_parameters :=
                 [{| name := "p_from"; toolParamName := "pFrom"; pgType := "uuid";
                     description := None |};
                  {| name := "p_amount"; toolParamName := "pAmount"; pgType := "numeric";
                     description := None |}];
               pgReturnType := Some "jsonb"; pgReturnsSet := Some false;
               td_columns := [] |}]
  /\ Forall (fun e => level e = LOG)
       (console (introspectSchema Mock.this (Mock.start Mock.gapped)).2).
Proof.
  split; [vm_compute; reflexivity |]. split; [vm_compute; reflexivity |].
  vm_compute. repeat constructor.
Qed.

(** The theorem for C4 at a payload whose positions are 3 and 1, in that
    order. *)
Lemma function_parameters_follow_payload_order_witness :
  exists details,
    objectDetailsSchema
      (functionPayload "transfer" JSNull
         [("p_amount", "numeric", 3%Z); ("p_from", "uuid", 1%Z)] "jsonb" false)
    = Some details
    /\ type (transformToToolDefinition details) = FUNCTION
    /\ td_parameters (transformToToolDefinition details)
       = List.map (fun p => {| name := p.1.1; toolParamName := camelCase p.1.1;
                               pgType := p.1.2; description := None |})
           [("p_amount", "numeric", 3%Z); ("p_from", "uuid", 1%Z)].
Proof.
  apply (function_parameters_follow_payload_order (Num := Z) "transfer" JSNull None
           [("p_amount", "numeric", 3%Z); ("p_from", "uuid", 1%Z)] "jsonb" false).
  - repeat constructor.
  - reflexivity.
Defined.

(** The theorem for C10 at the payload [barePayload]. *)
Lemma function_payload_without_signature_witness :
  exists details,
    objectDetailsSchema (JSObject barePayload) = Some details
    /\ (fetchObjectDetails Mock.this (so_object_name pingObject) (so_object_type pingObject)
          (Mock.start bareDb)).1
       = inr (Some details)
    /\ transformToToolDefinition details
       = {| toolName := camelCase "ping"; pgName := "ping"; type := FUNCTION;
            td_description := None;
            td_parameters := []; pgReturnType := None; pgReturnsSet := None;
            td_columns := [] |}
    /\ (generateInputSchemaShape (td_parameters (transformToToolDefinition details))
          (Mock.start bareDb)).1
       = inr ∅.
Proof.
  apply (function_payload_without_signature_is_a_tool Mock.this pingObject
           (Mock.start bareDb) barePayload "ping" None None); reflexivity.
Defined.

(** ** Registration *)

Section RegistrationProofs.
Context {World : Type}.

Lemma generateInputSchemaShape_total (parameters : list IntrospectedParameter) (st : State World) :
  exists shape entries,
    generateInputSchemaShape parameters st = (inr shape, logged st entries).
Proof.
  unfold generateInputSchemaShape. generalize (∅ : gmap string ZodType).
  revert st. induction parameters as [| param rest IH]; intros st shape.
  - exists shape, []. by rewrite logged_nil.
  - cbn [forEach]. rewrite bind_run, bind_run.
    destruct (mapPgTypeToZod_total (pgType param) false st) as [t [entries Hmap]].
    rewrite Hmap. cbn [mret M_ret].
    destruct (IH (logged st entries)
                (js_set (toolParamName param) (describeIfTruthy (description param) t) shape))
      as [shape' [entries' Hrest]].
    rewrite Hrest, logged_logged. by eexists; eexists.
Qed.

Lemma registerTool_run (server : gmap string RegisteredTool)
    (definition : IntrospectedToolDefinition) (st : State World) :
  exists shape entries,
    registerTool server definition st =
      (inr (match server !! toolName definition with
            | Some _ => server
            | None => <[toolName definition := registration definition shape]> server
            end),
       logged st entries)
    /\ (is_Some (server !! toolName definition) -> registrationFailure definition ∈ entries).
Proof.
  assert (Hshape : exists shape entries,
             (match type definition with
              | FUNCTION => generateInputSchemaShape (td_parameters definition)
              | VIEW => mret ∅
              end) st = (inr shape, logged st entries)).
  { destruct (type definition).
    - exists ∅, []. by rewrite logged_nil.
    - apply generateInputSchemaShape_total. }
  destruct Hshape as [shape [entries Hshape]].
  exists shape. unfold registerTool, tryCatch. rewrite bind_run, Hshape.
  rewrite bind_run. unfold McpServer_tool.
  destruct (server !! toolName definition) as [taken |].
  - unfold throw. rewrite bind_run. unfold console_error. rewrite console_write_run.
    cbn [mret M_ret]. rewrite logged_logged. eexists. split; [reflexivity |].
    intros _. apply elem_of_app. right. apply elem_of_cons. by left.
  - cbn [mret M_ret]. rewrite bind_run. unfold console_log. rewrite console_write_run.
    rewrite logged_logged. eexists. split; [reflexivity |].
    intros [x Hx]. discriminate.
Qed.

Lemma registerTools_loop (defs : list IntrospectedToolDefinition) :
  forall (server : gmap string RegisteredTool) (st : State World),
  exists final entries,
    forEach registerTool defs server st = (inr final, logged st entries)
    /\ (forall n,
          rt_definition <$> final !! n
          = match server !! n with
            | Some rt => Some (rt_definition rt)
            | None => firstNamed n defs
            end)
    /\ (forall i d,
          defs !! i = Some d ->
          is_Some (server !! toolName d)
          \/ (exists j d', j < i /\ defs !! j = Some d' /\ toolName d' = toolName d) ->
          registrationFailure d ∈ entries).
Proof.
  induction defs as [| d rest IH]; intros server st.
  - exists server, []. rewrite logged_nil. split; [reflexivity |]. split.
    + intros n. destruct (server !! n); reflexivity.
    + intros i d Hi. by rewrite lookup_nil in Hi.
  - cbn [forEach]. rewrite bind_run.
    destruct (registerTool_run server d st) as [shape [entries [Hrun Hfail]]].
    rewrite Hrun.
    match goal with
    | |- context [forEach registerTool rest ?server' ?st'] =>
        destruct (IH server' st') as [final [entries' [Hrest [Hreg Hlog]]]]
    end.
    rewrite Hrest, logged_logged. exists final, (entries ++ entries')%list.
    split; [reflexivity |]. split.
    + intros n. rewrite Hreg. unfold firstNamed. cbn [List.find].
      destruct (server !! toolName d) as [taken |] eqn:Htaken.
      * destruct (server !! n) as [rt |] eqn:Hn; [reflexivity |].
        destruct (String.eqb (toolName d) n) eqn:Heq; [| reflexivity].
        apply String.eqb_eq in Heq. congruence.
      * destruct (String.eqb (toolName d) n) eqn:Heq.
        -- apply String.eqb_eq in Heq. subst n.
           rewrite lookup_insert_eq, Htaken. reflexivity.
        -- apply String.eqb_neq in Heq. by rewrite lookup_insert_ne.
    + intros i d0 Hi Hdup. apply elem_of_app.
      destruct i as [| i].
      * cbn in Hi. injection Hi as <-. left. apply Hfail.
        destruct Hdup as [Htaken | [j [d' [Hj _]]]]; [exact Htaken | lia].
      * right. cbn in Hi. apply (Hlog i d0 Hi).
        destruct Hdup as [Htaken | [j [d' [Hj [Hd' Hsame]]]]].
        -- left. destruct (server !! toolName d) eqn:Hd; [exact Htaken |].
           destruct (decide (toolName d = toolName d0)) as [Heq | Hne].
           ++ rewrite <- Heq, lookup_insert_eq. by eexists.
           ++ by rewrite lookup_insert_ne.
        -- destruct j as [| j].
           ++ cbn in Hd'. injection Hd' as <-. left.
              rewrite <- Hsame.
              destruct (server !! toolName d) eqn:Hd; [by eexists |].
              rewrite lookup_insert_eq. by eexists.
           ++ right. exists j, d'. cbn in Hd'. repeat split; [lia | exact Hd' | exact Hsame].
Qed.

End RegistrationProofs.

(** ** JSON.stringify with the handler's replacer *)

Lemma BigInt_roundtrip (z : Z) : BigInt_parse (BigInt_toString z) = Some z.
Proof.
  unfold BigInt_parse, BigInt_toString.
  rewrite NilZero.isi.
  - by rewrite DecimalZ.of_to.
  - destruct z as [| p | p]; cbn; [discriminate | | discriminate].
    intros H. injection H. apply DecimalPos.Unsigned.to_uint_nonnil.
  - destruct z as [| p | p]; cbn; [discriminate | discriminate |].
    intros H. injection H. apply DecimalPos.Unsigned.to_uint_nonnil.
Qed.

(** Induction on values, with the hypothesis for every element of an array
    and every member of an object. *)
Section ValueInduction.
Context {Num : Type} (P : JSValue Num -> Prop).
Hypothesis Pundefined : P JSUndefined.
Hypothesis Pnull : P JSNull.
Hypothesis Pbool : forall b, P (JSBool b).
Hypothesis Pnumber : forall n, P (JSNumber n).
Hypothesis Pbigint : forall z, P (JSBigInt z).
Hypothesis Pstring : forall s, P (JSString s).
Hypothesis Parray : forall xs, Forall P xs -> P (JSArray xs).
Hypothesis Pobject : forall fields, Forall (fun kv => P kv.2) fields -> P (JSObject fields).

Fixpoint JSValue_induction (v : JSValue Num) : P v :=
  match v with
  | JSUndefined => Pundefined
  | JSNull => Pnull
  | JSBool b => Pbool b
  | JSNumber n => Pnumber n
  | JSBigInt z => Pbigint z
  | JSString s => Pstring s
  | JSArray xs =>
      Parray xs ((fix all (l : list (JSValue Num)) : Forall P l :=
                    match l with
                    | [] => List.Forall_nil P
                    | x :: r => List.Forall_cons P x r (JSValue_induction x) (all r)
                    end) xs)
  | JSObject fields =>
      Pobject fields
        ((fix all (l : list (string * JSValue Num)) : Forall (fun kv => P kv.2) l :=
            match l with
            | [] => List.Forall_nil _
            | kv :: r => List.Forall_cons _ kv r (JSValue_induction kv.2) (all r)
            end) fields)
  end.

End ValueInduction.

Section StringifyProofs.
Context {Num : Type} `{!JSNumberOps Num}.

Lemma arrayPartial_agree (f g : JSValue Num -> Completion) (h : JSValue Num -> JSValue Num) xs :
  Forall (fun x => f x = g (h x) /\ settled (f x)) xs ->
  JSON.arrayPartial f xs = JSON.arrayPartial g (List.map h xs)
  /\ exists parts, JSON.arrayPartial f xs = inr parts.
Proof.
  induction 1 as [| x rest [Heq Hset] _ [IH [parts Hparts]]].
  - split; [reflexivity | by eexists].
  - cbn [JSON.arrayPartial List.map]. rewrite <- Heq, <- IH, Hparts.
    destruct (f x); try contradiction; split; try reflexivity; by eexists.
Qed.

Lemma objectPartial_agree (f g : JSValue Num -> Completion) (h : JSValue Num -> JSValue Num)
    fields :
  Forall (fun kv => f kv.2 = g (h kv.2) /\ settled (f kv.2)) fields ->
  JSON.objectPartial f fields = JSON.objectPartial g (List.map (fun kv => (kv.1, h kv.2)) fields)
  /\ exists parts, JSON.objectPartial f fields = inr parts.
Proof.
  induction 1 as [| [k v] rest [Heq Hset] _ [IH [parts Hparts]]].
  - split; [reflexivity | by eexists].
  - cbn [JSON.objectPartial List.map fst snd] in *. rewrite <- Heq, <- IH, Hparts.
    destruct (f v); try contradiction; split; try reflexivity; by eexists.
Qed.

Lemma wrap_text open close stepback indent parts :
  exists s, JSON.wrap open close stepback indent (inr parts) = Text s.
Proof. destruct parts; by eexists. Qed.

Lemma height_bigintsAsStrings (v : JSValue Num) :
  JSON.height (bigintsAsStrings v) = JSON.height v.
Proof.
  induction v as [| | | | | | xs IH | fields IH] using JSValue_induction; try reflexivity.
  - cbn [bigintsAsStrings JSON.height]. f_equal.
    induction IH as [| x rest Hx _ IHrest]; [reflexivity |].
    cbn [List.map foldr]. by rewrite Hx, IHrest.
  - cbn [bigintsAsStrings JSON.height]. f_equal.
    induction IH as [| [k x] rest Hx _ IHrest]; [reflexivity |].
    cbn [List.map foldr fst snd] in *. by rewrite Hx, IHrest.
Qed.

Lemma serialize_bigintReplacer gap (v : JSValue Num) :
  forall fuel indent,
    JSON.height v < fuel ->
    JSON.SerializeJSONProperty bigintReplacer gap fuel indent v
    = JSON.SerializeJSONProperty noReplacer gap fuel indent (bigintsAsStrings v)
    /\ settled (JSON.SerializeJSONProperty bigintReplacer gap fuel indent v)
    /\ (v <> JSUndefined ->
        exists s, JSON.SerializeJSONProperty bigintReplacer gap fuel indent v = Text s).
Proof.
  induction v as [| | b | n | z | s | xs IH | fields IH] using JSValue_induction;
    intros fuel indent Hfuel;
    (destruct fuel as [| fuel]; [lia |]);
    try (split; [reflexivity | split; [by (try destruct b) |]];
         intros Hv; try contradiction; try destruct b; by eexists).
  - cbn [JSON.SerializeJSONProperty bigintReplacer noReplacer bigintsAsStrings].
    assert (Hargs : Forall (fun x =>
                       JSON.SerializeJSONProperty bigintReplacer gap fuel (indent ++ gap) x
                       = JSON.SerializeJSONProperty noReplacer gap fuel (indent ++ gap)
                           (bigintsAsStrings x)
                       /\ settled (JSON.SerializeJSONProperty bigintReplacer gap fuel
                                     (indent ++ gap) x)) xs).
    { cbn [JSON.height] in Hfuel. apply Nat.succ_lt_mono in Hfuel.
      induction IH as [| x rest Hx _ IHrest]; constructor.
      - split; [apply Hx | apply Hx]; cbn [foldr] in Hfuel; lia.
      - apply IHrest. cbn [foldr] in Hfuel. lia. }
    destruct (arrayPartial_agree _ _ _ _ Hargs) as [Heq [parts Hparts]].
    rewrite <- Heq, Hparts.
    destruct (wrap_text "[" "]" indent (indent ++ gap) parts) as [s Hs].
    rewrite Hs. split; [reflexivity |]. split; [exact I | by eexists].
  - cbn [JSON.SerializeJSONProperty bigintReplacer noReplacer bigintsAsStrings].
    assert (Hargs : Forall (fun kv =>
                       JSON.SerializeJSONProperty bigintReplacer gap fuel (indent ++ gap) kv.2
                       = JSON.SerializeJSONProperty noReplacer gap fuel (indent ++ gap)
                           (bigintsAsStrings kv.2)
                       /\ settled (JSON.SerializeJSONProperty bigintReplacer gap fuel
                                     (indent ++ gap) kv.2)) fields).
    { cbn [JSON.height] in Hfuel. apply Nat.succ_lt_mono in Hfuel.
      induction IH as [| kv rest Hx _ IHrest]; constructor.
      - split; [apply Hx | apply Hx]; cbn [foldr] in Hfuel; lia.
      - apply IHrest. cbn [foldr] in Hfuel. lia. }
    destruct (objectPartial_agree _ _ _ _ Hargs) as [Heq [parts Hparts]].
    rewrite <- Heq, Hparts.
    destruct (wrap_text "{" "}" indent (indent ++ gap) parts) as [s Hs].
    rewrite Hs. split; [reflexivity |]. split; [exact I | by eexists].
Qed.

Lemma stringify_bigintReplacer (v : JSValue Num) :
  JSON.stringify v bigintReplacer = JSON.stringify (bigintsAsStrings v) noReplacer
  /\ (v <> JSUndefined -> exists s, JSON.stringify v bigintReplacer = Text s).
Proof.
  unfold JSON.stringify. rewrite height_bigintsAsStrings.
  destruct (serialize_bigintReplacer "  " v (S (JSON.height v)) "") as [Heq [_ Htext]]; [lia |].
  split; [exact Heq | exact Htext].
Qed.

End StringifyProofs.

(** ** The handler *)

Section HandlerProofs.
Context {Num World : Type} `{!JSNumberOps Num} `{!SupabaseJs Num World}.

Lemma encodeResult_run (definition : IntrospectedToolDefinition) (rawResult : JSValue Num)
    (st : State World) :
  exists s,
    encodeResult definition rawResult st = (inr s, st)
    /\ (rawResult = JSUndefined \/ rawResult = JSNull -> s = noContentText definition)
    /\ (rawResult <> JSUndefined -> rawResult <> JSNull ->
        JSON.stringify rawResult bigintReplacer = Text s).
Proof.
  destruct (stringify_bigintReplacer rawResult) as [_ Htext].
  destruct rawResult as [| | b | n | z | str | xs | fields];
    try (exists (noContentText definition); split; [reflexivity |];
         split; [reflexivity | intros; contradiction]);
    (destruct Htext as [s Hs]; [discriminate |]; exists s; unfold encodeResult; rewrite Hs;
     split; [reflexivity |]; split; [intros [H | H]; discriminate | reflexivity]).
Qed.

Lemma handler_success this (definition : IntrospectedToolDefinition) args (st st1 : State World)
    (rawResult : JSValue Num) :
  dispatch this definition args (logged st [invokedEntry definition]) = (inr rawResult, st1) ->
  exists s,
    handler this definition args st
    = (inr (successPayload s), logged st1 [executedEntry definition])
    /\ encodeResult definition rawResult (logged st1 [executedEntry definition])
       = (inr s, logged st1 [executedEntry definition]).
Proof.
  intros Hd.
  destruct (encodeResult_run definition rawResult (logged st1 [executedEntry definition]))
    as [s [Hs _]].
  exists s. split; [| exact Hs].
  unfold handler, tryCatch. rewrite bind_run. unfold console_log at 1.
  rewrite console_write_run. fold (invokedEntry definition).
  rewrite bind_run, Hd. rewrite bind_run. unfold console_log at 1.
  rewrite console_write_run. fold (executedEntry definition).
  rewrite bind_run, Hs. reflexivity.
Qed.

Lemma selectFromView_present this viewName (st st1 : State World) (rawResult : JSValue Num) :
  selectFromView this viewName st = (inr rawResult, st1) ->
  rawResult <> JSNull /\ rawResult <> JSUndefined.
Proof.
  unfold selectFromView. rewrite bind_run. unfold console_log at 1.
  rewrite console_write_run. rewrite bind_run. unfold await_client.
  destruct (client_from_select viewName _) as [[e | data [error |]] w]; cbn.
  - discriminate.
  - unfold mbind, M_bind, console_error. rewrite console_write_run. discriminate.
  - unfold mbind, M_bind, console_log. rewrite console_write_run. cbn [mret M_ret].
    intros H. injection H as <- _. by destruct data.
Qed.

(** C8, as the code has it: when the read or call behind a tool succeeds,
    the handler returns a success payload, never an error payload.  An absent
    result ([null] or [undefined]) gives the no-content marker; an empty but
    present result such as the empty array is printed as JSON ([[]]), without
    the marker; and the read behind a VIEW tool never gives an absent result,
    since [selectFromView] turns absent data into the empty array. *)
Theorem handler_marks_absent_results_only
    (this : SupabaseClientWrapper) (definition : IntrospectedToolDefinition)
    (args : option (gmap string (JSValue Num))) (st st1 : State World)
    (rawResult : JSValue Num) :
  dispatch this definition args (logged st [invokedEntry definition]) = (inr rawResult, st1) ->
  (exists s, (handler this definition args st).1 = inr (successPayload s))
  /\ (rawResult = JSUndefined \/ rawResult = JSNull ->
      (handler this definition args st).1 = inr (successPayload (noContentText definition)))
  /\ (rawResult = JSArray [] ->
      (handler this definition args st).1 = inr (successPayload "[]"))
  /\ (type definition = VIEW -> rawResult <> JSNull /\ rawResult <> JSUndefined).
Proof.
  intros Hd. destruct (handler_success this definition args st st1 rawResult Hd)
    as [s [Hrun Henc]].
  rewrite Hrun. cbn [fst]. split; [by exists s |]. split; [| split].
  - intros Habsent.
    destruct (encodeResult_run definition rawResult (logged st1 [executedEntry definition]))
      as [s' [Hs' [Hmark _]]].
    rewrite Henc in Hs'. injection Hs' as ->. by rewrite (Hmark Habsent).
  - intros ->. cbn in Henc. by injection Henc as <-.
  - intros Hview. unfold dispatch in Hd. rewrite Hview in Hd.
    exact (selectFromView_present _ _ _ _ _ Hd).
Qed.

(** C7: the text the handler returns for a result is the JSON text of that
    result with every BigInt in it, at any depth, replaced by the string of
    its decimal digits; serialization never fails on a BigInt; and the
    decimal string reads back as the same integer, so no precision is lost,
    whatever the magnitude. *)
Theorem bigints_are_encoded_as_decimal_strings
    (definition : IntrospectedToolDefinition) (rawResult : JSValue Num) (st : State World) :
  JSON.stringify rawResult bigintReplacer = JSON.stringify (bigintsAsStrings rawResult) noReplacer
  /\ (rawResult <> JSUndefined -> rawResult <> JSNull ->
      exists s,
        JSON.stringify rawResult bigintReplacer = Text s
        /\ encodeResult definition rawResult st = (inr s, st))
  /\ (forall z : Z,
        bigintsAsStrings (JSBigInt z : JSValue Num) = JSString (BigInt_toString z)
        /\ BigInt_parse (BigInt_toString z) = Some z)
  /\ BigInt_toString 9007199254740993 = "9007199254740993".
Proof.
  split; [apply stringify_bigintReplacer |]. split; [| split].
  - intros Hu Hn.
    destruct (encodeResult_run definition rawResult st) as [s [Hrun [_ Htext]]].
    exists s. split; [by apply Htext | exact Hrun].
  - intros z. split; [reflexivity | apply BigInt_roundtrip].
  - reflexivity.
Qed.

Lemma buildRpcParams_fold (args : option (gmap string (JSValue Num)))
    (ps : list IntrospectedParameter) :
  forall (acc : gmap string (JSValue Num)) k v,
    foldl (fun rpcParams paramInfo =>
             if hasOwn args (toolParamName paramInfo)
             then js_set (name paramInfo) (getArg args (toolParamName paramInfo)) rpcParams
             else rpcParams) acc ps !! k = Some v ->
    acc !! k = Some v
    \/ (k <> "__proto__"
        /\ exists p, p ∈ ps /\ name p = k /\ hasOwn args (toolParamName p) = true
                     /\ v = getArg args (toolParamName p)).
Proof.
  induction ps as [| p rest IH]; intros acc k v; cbn [foldl]; [by left |].
  intros Hk. apply IH in Hk as [Hacc | [Hproto [q [Hq Hrest]]]].
  - destruct (hasOwn args (toolParamName p)) eqn:Hown; [| by left].
    unfold js_set in Hacc. destruct (String.eqb (name p) "__proto__") eqn:Hp; [by left |].
    apply String.eqb_neq in Hp.
    destruct (decide (name p = k)) as [<- | Hne].
    + rewrite lookup_insert_eq in Hacc. injection Hacc as <-.
      right. split; [exact Hp |]. exists p. repeat split; [apply elem_of_cons; by left | done].
    + rewrite lookup_insert_ne in Hacc by done. by left.
  - right. split; [exact Hproto |]. exists q. split; [apply elem_of_cons; by right | exact Hrest].
Qed.

Lemma buildRpcParams_keeps (args : option (gmap string (JSValue Num)))
    (ps : list IntrospectedParameter) :
  forall (acc : gmap string (JSValue Num)) k,
    is_Some (acc !! k)
    \/ (k <> "__proto__"
        /\ exists p, p ∈ ps /\ name p = k /\ hasOwn args (toolParamName p) = true) ->
    is_Some (foldl (fun rpcParams paramInfo =>
                      if hasOwn args (toolParamName paramInfo)
                      then js_set (name paramInfo) (getArg args (toolParamName paramInfo))
                             rpcParams
                      else rpcParams) acc ps !! k).
Proof.
  induction ps as [| p rest IH]; intros acc k; cbn [foldl].
  - intros [Hacc | [_ [p [Hp _]]]]; [exact Hacc | by apply elem_of_nil in Hp].
  - intros [Hacc | [Hproto [q [Hq [Hname Hown]]]]]; apply IH.
    + left. destruct (hasOwn args (toolParamName p)); [| exact Hacc].
      unfold js_set. destruct (String.eqb (name p) "__proto__"); [exact Hacc |].
      destruct (decide (name p = k)) as [<- | Hne].
      * rewrite lookup_insert_eq. by eexists.
      * by rewrite lookup_insert_ne.
    + apply elem_of_cons in Hq as [-> | Hq].
      * left. rewrite Hown. unfold js_set.
        destruct (String.eqb (name p) "__proto__") eqn:Hp.
        -- apply String.eqb_eq in Hp. congruence.
        -- rewrite Hname, lookup_insert_eq. by eexists.
      * right. split; [exact Hproto |]. by exists q.
Qed.

(** C9: the record passed to the database call holds a catalog name exactly
    when some declared parameter of that name has its public name among the
    own properties of the argument map, and then with the value supplied
    under that public name; a parameter whose public name is absent
    contributes nothing, neither [null] nor [undefined].  This record is the
    one the call of a FUNCTION tool sends. *)
Theorem rpcParams_hold_only_supplied_arguments
    (this : SupabaseClientWrapper) (definition : IntrospectedToolDefinition)
    (args : option (gmap string (JSValue Num))) (st : State World) :
  (forall k,
      is_Some (buildRpcParams definition args !! k)
      <-> k <> "__proto__"
          /\ exists p, p ∈ td_parameters definition /\ name p = k
                       /\ hasOwn args (toolParamName p) = true)
  /\ (forall k v,
        buildRpcParams definition args !! k = Some v ->
        exists p, p ∈ td_parameters definition /\ name p = k
                  /\ hasOwn args (toolParamName p) = true
                  /\ v = getArg args (toolParamName p))
  /\ (type definition = FUNCTION ->
      db (dispatch this definition args st).2
      = (client_rpc (pgName definition) (buildRpcParams definition args) (db st)).2).
Proof.
  split; [| split].
  - intros k. split.
    + intros [v Hv]. apply buildRpcParams_fold in Hv as [Hempty | [Hproto [p Hp]]].
      * by rewrite lookup_empty in Hempty.
      * split; [exact Hproto |]. exists p. tauto.
    + intros H. apply buildRpcParams_keeps. by right.
  - intros k v Hv. apply buildRpcParams_fold in Hv as [Hempty | [_ Hp]].
    + by rewrite lookup_empty in Hempty.
    + exact Hp.
  - intros Hfun. unfold dispatch. rewrite Hfun, callRpc_run. cbv zeta.
    destruct (client_rpc (pgName definition) (buildRpcParams definition args) (db st))
      as [[e | data [error |]] w]; reflexivity.
Qed.

End HandlerProofs.

Section RegistrationTheorem.
Context {World : Type}.

(** C5: [registerTools] never throws and registers, under every public name
    that occurs among the definitions, the first definition (in discovery
    order) carrying that name, so each name stays callable with the handler
    of that first definition; a later definition with a name already taken is
    rejected by the registry, leaves the earlier tool untouched, and is
    reported on the console through [console.error]. *)
Theorem registerTools_keeps_the_earlier_tool
    (toolDefinitions : list IntrospectedToolDefinition) (st : State World) :
  exists server st',
    registerTools toolDefinitions ∅ st = (inr server, st')
    /\ (forall publicName,
          rt_definition <$> server !! publicName = firstNamed publicName toolDefinitions)
    /\ (forall i later,
          toolDefinitions !! i = Some later ->
          (exists j earlier,
              j < i /\ toolDefinitions !! j = Some earlier
              /\ toolName earlier = toolName later) ->
          registrationFailure later ∈ console st').
Proof.
  unfold registerTools. 
  destruct (registerTools_loop toolDefinitions ∅
              (logged st [{| level := LOG;
                             text := "Registering " ++ pretty (length toolDefinitions)
                                       ++ " tools..." |}]))
    as [final [entries [Hrun [Hreg Hlog]]]].
  exists final. eexists. split; [| split].
  - rewrite bind_run. unfold console_log. rewrite console_write_run. exact Hrun.
  - intros n. rewrite Hreg. by rewrite lookup_empty.
  - intros i later Hi Hdup. unfold logged. cbn [console].
    apply elem_of_app. right. apply (Hlog i later Hi). by right.
Qed.

End RegistrationTheorem.

(** ** Concrete runs *)

(** C8, the claim as stated fails: the read behind the view tool succeeds
    with an empty result, and the success payload carries the text [[]], not
    the no-content marker. *)
Lemma handler_empty_view_result_has_no_marker :
  (dispatch Mock.this Mock.emptyView None
     (logged (Mock.start idleDb) [invokedEntry Mock.emptyView])).1 = inr (JSArray [])
  /\ (handler Mock.this Mock.emptyView None (Mock.start idleDb)).1 = inr (successPayload "[]")
  /\ "[]" <> noContentText Mock.emptyView.
Proof.
  split; [vm_compute; reflexivity |]. split; [vm_compute; reflexivity |].
  vm_compute. discriminate.
Qed.

(** The theorem for C8 at a function call that answers [null]. *)
Lemma handler_marks_absent_results_witness :
  (exists s, (handler Mock.this Mock.addNoteToUser None (Mock.start idleDb)).1
             = inr (successPayload s))
  /\ (@JSNull Z = JSUndefined \/ @JSNull Z = JSNull ->
      (handler Mock.this Mock.addNoteToUser None (Mock.start idleDb)).1
      = inr (successPayload (noContentText Mock.addNoteToUser)))
  /\ (@JSNull Z = JSArray [] ->
      (handler Mock.this Mock.addNoteToUser None (Mock.start idleDb)).1
      = inr (successPayload "[]"))
  /\ (type Mock.addNoteToUser = VIEW -> @JSNull Z <> JSNull /\ @JSNull Z <> JSUndefined).
Proof.
  apply (handler_marks_absent_results_only Mock.this Mock.addNoteToUser None
           (Mock.start idleDb)
           (dispatch Mock.this Mock.addNoteToUser None
              (logged (Mock.start idleDb) [invokedEntry Mock.addNoteToUser])).2
           JSNull).
  vm_compute. reflexivity.
Defined.

(** A result with a BigInt above 2^53 inside an object. *)
Example encodeResult_bigint_above_2_53 :
  (encodeResult Mock.addNoteToUser
     (JSObject [("id", JSBigInt 9007199254740993); ("tags", JSArray [])])
     (Mock.start idleDb)).1
  = inr ("{" ++ JSON.newline
           ++ "  " ++ dquote ++ "id" ++ dquote ++ ": " ++ dquote ++ "9007199254740993" ++ dquote
           ++ "," ++ JSON.newline
           ++ "  " ++ dquote ++ "tags" ++ dquote ++ ": []" ++ JSON.newline
           ++ "}").
Proof. vm_compute. reflexivity. Qed.

(** The theorem for C7 at an array holding a BigInt above 2^53. *)
Lemma bigints_are_encoded_witness :
  JSON.stringify (JSArray [JSBigInt 9007199254740993; @JSNull Z]) bigintReplacer
  = JSON.stringify (bigintsAsStrings (JSArray [JSBigInt 9007199254740993; @JSNull Z]))
      noReplacer
  /\ (JSArray [JSBigInt 9007199254740993; @JSNull Z] <> JSUndefined ->
      JSArray [JSBigInt 9007199254740993; @JSNull Z] <> JSNull ->
      exists s,
        JSON.stringify (JSArray [JSBigInt 9007199254740993; @JSNull Z]) bigintReplacer = Text s
        /\ encodeResult Mock.addNoteToUser (JSArray [JSBigInt 9007199254740993; @JSNull Z])
             (Mock.start idleDb)
           = (inr s, Mock.start idleDb))
  /\ (forall z : Z,
        bigintsAsStrings (JSBigInt z : JSValue Z) = JSString (BigInt_toString z)
        /\ BigInt_parse (BigInt_toString z) = Some z)
  /\ BigInt_toString 9007199254740993 = "9007199254740993".
Proof.
  exact (bigints_are_encoded_as_decimal_strings Mock.addNoteToUser
           (JSArray [JSBigInt 9007199254740993; @JSNull Z]) (Mock.start idleDb)).
Defined.

(** Only [pNoteText] is supplied: [p_user_id] is not sent at all. *)
Example handler_omits_missing_argument :
  buildRpcParams Mock.addNoteToUser (Some (<["pNoteText" := JSString "hi"]> ∅))
  = (<["p_note_text" := @JSString Z "hi"]> ∅)
  /\ Mock.requests
       (db (handler Mock.this Mock.addNoteToUser (Some (<["pNoteText" := JSString "hi"]> ∅))
              (Mock.start idleDb)).2)
     = [("add_note_to_user", <["p_note_text" := JSString "hi"]> ∅)].
Proof. split; vm_compute; reflexivity. Qed.

(** The theorem for C9 at a call that supplies [pNoteText] only. *)
Lemma rpcParams_hold_only_supplied_arguments_witness :
  (forall k,
      is_Some (buildRpcParams Mock.addNoteToUser
                 (Some (<["pNoteText" := @JSString Z "hi"]> ∅)) !! k)
      <-> k <> "__proto__"
          /\ exists p, p ∈ td_parameters Mock.addNoteToUser /\ name p = k
                       /\ hasOwn (Some (<["pNoteText" := @JSString Z "hi"]> ∅))
                            (toolParamName p) = true)
  /\ (forall k v,
        buildRpcParams Mock.addNoteToUser
          (Some (<["pNoteText" := @JSString Z "hi"]> ∅)) !! k = Some v ->
        exists p, p ∈ td_parameters Mock.addNoteToUser /\ name p = k
                  /\ hasOwn (Some (<["pNoteText" := @JSString Z "hi"]> ∅))
                       (toolParamName p) = true
                  /\ v = getArg (Some (<["pNoteText" := @JSString Z "hi"]> ∅))
                           (toolParamName p))
  /\ (type Mock.addNoteToUser = FUNCTION ->
      db (dispatch Mock.this Mock.addNoteToUser
            (Some (<["pNoteText" := @JSString Z "hi"]> ∅)) (Mock.start idleDb)).2
      = (client_rpc (pgName Mock.addNoteToUser)
           (buildRpcParams Mock.addNoteToUser (Some (<["pNoteText" := @JSString Z "hi"]> ∅)))
           (db (Mock.start idleDb))).2).
Proof.
  exact (rpcParams_hold_only_supplied_arguments Mock.this Mock.addNoteToUser
           (Some (<["pNoteText" := @JSString Z "hi"]> ∅)) (Mock.start idleDb)).
Defined.

(** The view, a function, and a function colliding with the view: the view
    stays registered under the shared name, the other function registers, and
    the collision is reported. *)
Example registerTools_collision_run :
  let r := registerTools (World := Mock.Db)
             [Mock.emptyView; Mock.addNoteToUser; collidingFunction] ∅ (Mock.start idleDb) in
  toolName collidingFunction = toolName Mock.emptyView
  /\ (exists server,
        r.1 = inr server
        /\ rt_definition <$> server !! "activeUserProfiles" = Some Mock.emptyView
        /\ rt_definition <$> server !! "addNoteToUser" = Some Mock.addNoteToUser)
  /\ registrationFailure collidingFunction ∈ console r.2.
Proof.
  cbv zeta. split; [reflexivity |]. split.
  - eexists. split; [vm_compute; reflexivity |]. split; vm_compute; reflexivity.
  - apply list_elem_of_In. vm_compute. repeat (first [left; reflexivity | right]).
Qed.

(** The theorem for C5 at the three definitions of the run above. *)
Lemma registerTools_keeps_the_earlier_tool_witness :
  exists server st',
    registerTools [Mock.emptyView; Mock.addNoteToUser; collidingFunction] ∅
      (Mock.start idleDb) = (inr server, st')
    /\ (forall publicName,
          rt_definition <$> server !! publicName
          = firstNamed publicName [Mock.emptyView; Mock.addNoteToUser; collidingFunction])
    /\ (forall i later,
          [Mock.emptyView; Mock.addNoteToUser; collidingFunction] !! i = Some later ->
          (exists j earlier,
              j < i
              /\ [Mock.emptyView; Mock.addNoteToUser; collidingFunction] !! j = Some earlier
              /\ toolName earlier = toolName later) ->
          registrationFailure later ∈ console st').
Proof.
  exact (registerTools_keeps_the_earlier_tool
           [Mock.emptyView; Mock.addNoteToUser; collidingFunction] (Mock.start idleDb)).
Defined.

(** The theorem for C3 at [add_note_to_user]. *)
Lemma toolName_follows_naming_rule_witness :
  toolName (transformToToolDefinition
              {| object_name := "add_note_to_user"; object_type := FUNCTION;
                 comment := None; columns := None;
                 parameters := Some ([] : list (ParameterDetail Z));
                 return_type := Some "jsonb"; returns_set := Some false |})
  = JsString.toLowerCase "add"
      ++ JsString.concat (List.map capitalizeFirst ["note"; "to"; "user"]).
Proof.
  apply (proj1 (toolName_follows_naming_rule (Num := Z))).
  - repeat constructor.
  - reflexivity.
Defined.

(** * Further properties *)

(** ** The type mapping as a table *)

Section TypeTable.
Context {World : Type}.

Lemma mapPgTypeToZod_run (pgType : string) (isNullable : bool) (st : State World) :
  mapPgTypeToZod pgType isNullable st =
    (inr (wrapType (isArrayType pgType) isNullable (mapElementType (elementTypeOf pgType)).1),
     logged st (mapElementType (elementTypeOf pgType)).2).
Proof.
  unfold mapPgTypeToZod, mapElementType.
  fold (isArrayType pgType). fold (elementTypeOf pgType).
  fold (normalizeTypeName (elementTypeOf pgType)).
  generalize (normalizeTypeName (elementTypeOf pgType)) as s. intros s.
  unfold lookupType, documentedTypes, wrapType, unknownTypeWarning.
  cbn [List.find fst snd].
  unfold JsString.oneOf. cbn [existsb].
  repeat match goal with
         | |- context [String.eqb s (normalizeTypeName ?a)] =>
             let v := eval vm_compute in (normalizeTypeName a) in
             change (normalizeTypeName a) with v
         end.
  repeat match goal with
         | |- context [String.eqb s ?lit] =>
             let E := fresh "E" in
             destruct (String.eqb s lit) eqn:E;
             [apply String.eqb_eq in E; subst s; cbn; by rewrite logged_nil |]
         end.
  reflexivity.
Qed.

Lemma mapElementType_base (elementType : string) :
  isBaseType (mapElementType elementType).1 = true.
Proof.
  unfold mapElementType, lookupType.
  destruct (List.find _ documentedTypes) as [entry |] eqn:Hfind; [| reflexivity].
  apply List.find_some in Hfind as [Hin _]. cbn [fmap option_fmap option_map fst].
  revert entry Hin. apply List.Forall_forall. unfold documentedTypes.
  repeat constructor.
Qed.

(** X1: [mapPgTypeToZod] is a lookup in the table of type names: the array
    marker is stripped, the element name is compared in lower case and without
    spaces, a name of the table gives its schema and prints nothing, any
    other name gives [z.any()] and one warning that quotes the element name as
    it was written. *)
Theorem mapPgTypeToZod_is_table_lookup
    (pgType : string) (isNullable : bool) (st : State World) :
  mapPgTypeToZod pgType isNullable st =
    match lookupType (normalizeTypeName (elementTypeOf pgType)) with
    | Some baseType => (inr (wrapType (isArrayType pgType) isNullable baseType), st)
    | None =>
        (inr (wrapType (isArrayType pgType) isNullable ZodAny),
         logged st [unknownTypeWarning (elementTypeOf pgType)])
    end.
Proof.
  rewrite mapPgTypeToZod_run. unfold mapElementType.
  destruct (lookupType _); cbn [fst snd]; [by rewrite logged_nil | reflexivity].
Qed.

(** X2: the result of [mapPgTypeToZod] has one of four shapes: a base schema,
    an array of a base schema, or one of these made nullable.  The nullable
    wrapper is there exactly when [isNullable] is set and is always the
    outermost one; arrays are never nested and elements never nullable. *)
Theorem mapPgTypeToZod_shape (pgType : string) (isNullable : bool) (st : State World) :
  exists baseType,
    isBaseType baseType = true
    /\ (mapPgTypeToZod pgType isNullable st).1
       = inr (if isNullable
              then ZodNullable (if isArrayType pgType then ZodArray baseType else baseType)
              else if isArrayType pgType then ZodArray baseType else baseType)
    /\ (mapPgTypeToZod pgType true st).1
       = inr (ZodNullable (if isArrayType pgType then ZodArray baseType else baseType))
    /\ (mapPgTypeToZod pgType false st).1
       = inr (if isArrayType pgType then ZodArray baseType else baseType)
    /\ console (mapPgTypeToZod pgType true st).2 = console (mapPgTypeToZod pgType false st).2.
Proof.
  exists (mapElementType (elementTypeOf pgType)).1.
  split; [apply mapElementType_base |].
  rewrite !mapPgTypeToZod_run. repeat split.
Qed.

End TypeTable.

(** ** Array markers *)

Section ArrayMarkers.

Lemma substring_whole (s u : string) :
  String.substring 0 (String.length s) (s ++ u) = s.
Proof.
  induction s as [| c s IH]; [by destruct u |].
  change (String c s ++ u) with (String c (s ++ u)).
  cbn [String.length String.substring]. by rewrite IH.
Qed.

Lemma substring_all (s : string) : String.substring 0 (String.length s) s = s.
Proof.
  induction s as [| c s IH]; [reflexivity |].
  cbn [String.length String.substring]. by rewrite IH.
Qed.

Lemma length_append (s u : string) :
  String.length (s ++ u) = String.length s + String.length u.
Proof.
  induction s as [| c s IH]; [reflexivity |].
  change (String c s ++ u) with (String c (s ++ u)).
  cbn [String.length]. by rewrite IH.
Qed.

Lemma substring_skip (s u : string) n :
  String.substring (String.length s) n (s ++ u) = String.substring 0 n u.
Proof.
  induction s as [| c s IH]; [reflexivity |].
  change (String c s ++ u) with (String c (s ++ u)).
  cbn [String.length String.substring]. exact IH.
Qed.

Lemma startsWith_underscore_append (t u : string) :
  u <> "" -> JsString.startsWith u "_" = false ->
  JsString.startsWith (t ++ u) "_" = JsString.startsWith t "_".
Proof.
  intros Hu Hstart. destruct t as [| c t].
  - change ("" ++ u) with u. rewrite Hstart. reflexivity.
  - change (String c t ++ u) with (String c (t ++ u)).
    unfold JsString.startsWith. cbn [String.prefix].
    destruct (ascii_dec "_" c); [| reflexivity]. by destruct t, u.
Qed.

Lemma underscore_form (t : string) :
  isArrayType ("_" ++ t) = true /\ elementTypeOf ("_" ++ t) = t.
Proof.
  change ("_" ++ t) with (String "_" t).
  assert (Hstart : JsString.startsWith (String "_" t) "_" = true).
  { unfold JsString.startsWith. cbn [String.prefix].
    destruct (ascii_dec "_" "_"); [by destruct t | congruence]. }
  unfold elementTypeOf, isArrayType. rewrite Hstart. cbn [orb]. split; [reflexivity |].
  unfold JsString.substring1.
  replace (String.length (String "_" t) - 1) with (String.length t) by (cbn; lia).
  cbn [String.substring]. apply substring_all.
Qed.

Lemma bracket_form (t : string) :
  JsString.startsWith t "_" = false ->
  isArrayType (t ++ "[]") = true /\ elementTypeOf (t ++ "[]") = t.
Proof.
  intros Hstart.
  assert (Hs : JsString.startsWith (t ++ "[]") "_" = false).
  { rewrite startsWith_underscore_append; [exact Hstart | discriminate | reflexivity]. }
  assert (He : JsString.endsWith (t ++ "[]") "[]" = true).
  { unfold JsString.endsWith. rewrite length_append. cbn [String.length].
    replace (String.length t + 2 - 2) with (String.length t) by lia.
    rewrite substring_skip.
    replace (2 <=? String.length t + 2)%nat with true
      by (symmetry; apply Nat.leb_le; lia).
    reflexivity. }
  unfold elementTypeOf, isArrayType. rewrite Hs, He. cbn [orb]. split; [reflexivity |].
  unfold JsString.slice0m2. rewrite length_append. cbn [String.length].
  replace (String.length t + 2 - 2) with (String.length t) by lia.
  apply substring_whole.
Qed.

(** X3: for an element type name [t] that carries no array marker itself,
    the catalog form [_t] and the bracket form [t[]] map to the same schema,
    which is the array of the schema of [t]; the three print the same
    warnings. *)
Theorem mapPgTypeToZod_array_forms {World : Type}
    (t : string) (isNullable : bool) (st : State World) (baseType : ZodType)
    (st' : State World) :
  isArrayType t = false ->
  mapPgTypeToZod t false st = (inr baseType, st') ->
  mapPgTypeToZod ("_" ++ t) isNullable st
  = (inr (if isNullable then ZodNullable (ZodArray baseType) else ZodArray baseType), st')
  /\ mapPgTypeToZod (t ++ "[]") isNullable st = mapPgTypeToZod ("_" ++ t) isNullable st.
Proof.
  intros Hplain Hrun.
  assert (Hstart : JsString.startsWith t "_" = false).
  { unfold isArrayType in Hplain. by apply orb_false_iff in Hplain as [? _]. }
  destruct (underscore_form t) as [Hu1 Hu2].
  destruct (bracket_form t Hstart) as [Hb1 Hb2].
  rewrite mapPgTypeToZod_run in Hrun. rewrite !mapPgTypeToZod_run.
  rewrite Hu1, Hu2, Hb1, Hb2.
  unfold elementTypeOf in Hrun. rewrite Hplain in Hrun. cbn [wrapType] in Hrun.
  injection Hrun as <- <-. split; reflexivity.
Qed.

End ArrayMarkers.

Lemma mapPgTypeToZod_array_forms_witness :
  mapPgTypeToZod ("_" ++ "Double Precision") true (Mock.start Mock.unreachable)
  = (inr (ZodNullable (ZodArray ZodNumber)), Mock.start Mock.unreachable)
  /\ mapPgTypeToZod ("Double Precision" ++ "[]") true (Mock.start Mock.unreachable)
     = mapPgTypeToZod ("_" ++ "Double Precision") true (Mock.start Mock.unreachable).
Proof.
  apply (mapPgTypeToZod_array_forms "Double Precision" true (Mock.start Mock.unreachable)
           ZodNumber (Mock.start Mock.unreachable)); reflexivity.
Defined.

(** ** The input schema of a function tool *)

Section InputSchema.
Context {World : Type}.

Lemma describeIfTruthy_not_nullable d z :
  (forall inner, z <> ZodNullable inner) ->
  forall inner, describeIfTruthy d z <> ZodNullable inner.
Proof.
  intros Hz inner. unfold describeIfTruthy.
  destruct d as [text |]; [| apply Hz].
  destruct (String.eqb text ""); [apply Hz | discriminate].
Qed.

Lemma parameterSchema_not_nullable p inner : parameterSchema p <> ZodNullable inner.
Proof.
  apply describeIfTruthy_not_nullable. intros i. unfold wrapType.
  destruct (isArrayType (pgType p)); [discriminate |].
  pose proof (mapElementType_base (elementTypeOf (pgType p))) as Hbase.
  intros Heq. rewrite Heq in Hbase. discriminate.
Qed.

Lemma inputSchema_loop (ps : list IntrospectedParameter) :
  forall (acc : gmap string ZodType) (st : State World),
  exists shape entries,
    forEach
      (fun schemaShape param =>
         zodType ← mapPgTypeToZod (pgType param) false;
         mret (js_set (toolParamName param) (describeIfTruthy (description param) zodType)
                 schemaShape))
      ps acc st = (inr shape, logged st entries)
    /\ Forall (fun e => level e = WARN) entries
    /\ (forall k,
          is_Some (shape !! k)
          <-> is_Some (acc !! k)
              \/ (k <> "__proto__" /\ exists p, p ∈ ps /\ toolParamName p = k))
    /\ (forall k z,
          shape !! k = Some z ->
          acc !! k = Some z \/ exists p, p ∈ ps /\ toolParamName p = k /\ z = parameterSchema p).
Proof.
  induction ps as [| p rest IH]; intros acc st.
  - exists acc, []. rewrite logged_nil. split; [reflexivity |]. split; [constructor |]. split.
    + intros k. split; [by left |]. intros [H | [_ [p [Hp _]]]]; [exact H |].
      by apply elem_of_nil in Hp.
    + intros k z Hk. by left.
  - cbn [forEach]. rewrite bind_run, bind_run, mapPgTypeToZod_run. cbn [mret M_ret].
    fold (parameterSchema p).
    destruct (IH (js_set (toolParamName p) (parameterSchema p) acc)
                (logged st (mapElementType (elementTypeOf (pgType p))).2))
      as [shape [entries [Hrun [Hwarn [Hkeys Hvals]]]]].
    exists shape, ((mapElementType (elementTypeOf (pgType p))).2 ++ entries)%list.
    split; [by rewrite Hrun, logged_logged |]. split; [| split].
    + apply Forall_app. split; [| exact Hwarn].
      unfold mapElementType. destruct (lookupType _); cbn; repeat constructor.
    + intros k. rewrite Hkeys. unfold js_set.
      destruct (String.eqb (toolParamName p) "__proto__") eqn:Hproto.
      * apply String.eqb_eq in Hproto. split.
        -- intros [H | [Hk [q [Hq Hname]]]]; [by left |].
           right. split; [exact Hk |]. exists q. split; [apply elem_of_cons; by right | done].
        -- intros [H | [Hk [q [Hq Hname]]]]; [by left |].
           apply elem_of_cons in Hq as [-> | Hq]; [congruence |].
           right. split; [exact Hk |]. by exists q.
      * apply String.eqb_neq in Hproto.
        destruct (decide (toolParamName p = k)) as [<- | Hne].
        -- split; intros _.
           ++ right. split; [exact Hproto |]. exists p. split; [apply elem_of_cons; by left | done].
           ++ left. rewrite lookup_insert_eq. by eexists.
        -- rewrite lookup_insert_ne by done. split.
           ++ intros [H | [Hk [q [Hq Hname]]]]; [by left |].
              right. split; [exact Hk |]. exists q. split; [apply elem_of_cons; by right | done].
           ++ intros [H | [Hk [q [Hq Hname]]]]; [by left |].
              apply elem_of_cons in Hq as [-> | Hq]; [congruence |].
              right. split; [exact Hk |]. by exists q.
    + intros k z Hk. apply Hvals in Hk as [Hacc | [q [Hq Hrest]]].
      * unfold js_set in Hacc. destruct (String.eqb (toolParamName p) "__proto__"); [by left |].
        destruct (decide (toolParamName p = k)) as [<- | Hne].
        -- rewrite lookup_insert_eq in Hacc. injection Hacc as <-.
           right. exists p. split; [apply elem_of_cons; by left | done].
        -- rewrite lookup_insert_ne in Hacc by done. by left.
      * right. exists q. split; [apply elem_of_cons; by right | exact Hrest].
Qed.

(** X4: [generateInputSchemaShape] never throws and prints warnings only.  The
    shape has one property per public parameter name (the key [__proto__]
    apart); the schema of a property is the mapped type of a parameter with
    that public name, described by its description when that is non-empty,
    and it is never nullable. *)
Theorem generateInputSchemaShape_properties
    (parameters : list IntrospectedParameter) (st : State World) :
  exists shape entries,
    generateInputSchemaShape parameters st = (inr shape, logged st entries)
    /\ Forall (fun e => level e = WARN) entries
    /\ (forall k,
          is_Some (shape !! k)
          <-> k <> "__proto__" /\ exists p, p ∈ parameters /\ toolParamName p = k)
    /\ (forall k z,
          shape !! k = Some z ->
          (exists p, p ∈ parameters /\ toolParamName p = k /\ z = parameterSchema p)
          /\ forall inner, z <> ZodNullable inner).
Proof.
  destruct (inputSchema_loop parameters ∅ st) as [shape [entries [Hrun [Hwarn [Hkeys Hvals]]]]].
  exists shape, entries. split; [exact Hrun |]. split; [exact Hwarn |]. split.
  - intros k. rewrite Hkeys. split.
    + intros [[x Hx] | H]; [by rewrite lookup_empty in Hx | exact H].
    + intros H. by right.
  - intros k z Hk. apply Hvals in Hk as [Hempty | [p [Hp [Hname ->]]]].
    + by rewrite lookup_empty in Hempty.
    + split; [by exists p |]. intros inner. apply parameterSchema_not_nullable.
Qed.

End InputSchema.

(** ** Arguments that are supplied *)

Section SuppliedArguments.
Context {Num : Type}.

Lemma buildRpcParams_untouched (args : option (gmap string (JSValue Num)))
    (ps : list IntrospectedParameter) :
  forall (acc : gmap string (JSValue Num)) k,
    (forall p, p ∈ ps -> name p <> k) ->
    foldl (fun rpcParams paramInfo =>
             if hasOwn args (toolParamName paramInfo)
             then js_set (name paramInfo) (getArg args (toolParamName paramInfo)) rpcParams
             else rpcParams) acc ps !! k = acc !! k.
Proof.
  induction ps as [| p rest IH]; intros acc k Hk; [reflexivity |].
  cbn [foldl]. rewrite IH by (intros q Hq; apply Hk, elem_of_cons; by right).
  destruct (hasOwn args (toolParamName p)); [| reflexivity].
  unfold js_set. destruct (String.eqb (name p) "__proto__"); [reflexivity |].
  apply lookup_insert_ne. apply Hk, elem_of_cons. by left.
Qed.

Lemma buildRpcParams_forward (args : option (gmap string (JSValue Num)))
    (ps : list IntrospectedParameter) :
  forall (acc : gmap string (JSValue Num)) p,
    NoDup (List.map name ps) ->
    p ∈ ps ->
    hasOwn args (toolParamName p) = true ->
    name p <> "__proto__" ->
    foldl (fun rpcParams paramInfo =>
             if hasOwn args (toolParamName paramInfo)
             then js_set (name paramInfo) (getArg args (toolParamName paramInfo)) rpcParams
             else rpcParams) acc ps !! name p
    = Some (getArg args (toolParamName p)).
Proof.
  induction ps as [| q rest IH]; intros acc p Hnodup Hp Hown Hproto.
  - by apply elem_of_nil in Hp.
  - cbn [List.map] in Hnodup. apply NoDup_cons in Hnodup as [Hq Hrest].
    cbn [foldl]. apply elem_of_cons in Hp as [-> | Hp].
    + rewrite buildRpcParams_untouched.
      * rewrite Hown. unfold js_set.
        destruct (String.eqb (name q) "__proto__") eqn:E.
        -- apply String.eqb_eq in E. congruence.
        -- apply lookup_insert_eq.
      * intros r Hr Heq. apply Hq. rewrite <- Heq. apply list_elem_of_fmap. by exists r.
    + by apply IH.
Qed.

(** X5: when the catalog names of the parameters are pairwise distinct, every
    parameter whose public name is an own property of the argument map is
    forwarded under its catalog name with exactly the supplied value (a
    catalog name [__proto__] apart).  In particular two parameters that share
    one public name both receive the one value supplied under it. *)
Theorem supplied_arguments_are_forwarded
    (definition : IntrospectedToolDefinition) (args : option (gmap string (JSValue Num))) :
  NoDup (List.map name (td_parameters definition)) ->
  (forall p,
      p ∈ td_parameters definition ->
      hasOwn args (toolParamName p) = true ->
      name p <> "__proto__" ->
      buildRpcParams definition args !! name p = Some (getArg args (toolParamName p)))
  /\ (forall p q,
        p ∈ td_parameters definition -> q ∈ td_parameters definition ->
        toolParamName p = toolParamName q ->
        hasOwn args (toolParamName p) = true ->
        name p <> "__proto__" -> name q <> "__proto__" ->
        buildRpcParams definition args !! name p = buildRpcParams definition args !! name q).
Proof.
  intros Hnodup. split.
  - intros p Hp Hown Hproto. by apply buildRpcParams_forward.
  - intros p q Hp Hq Hsame Hown Hp' Hq'. unfold buildRpcParams.
    rewrite (buildRpcParams_forward args _ ∅ p), (buildRpcParams_forward args _ ∅ q);
      try done; [by rewrite Hsame | by rewrite <- Hsame].
Qed.

End SuppliedArguments.

(** One value supplied under [pA] reaches both [p_a] and [p__a], and the
    input schema has the single property [pA], typed by the later parameter. *)
Example shared_public_name_run :
  buildRpcParams sharedNameFunction (Some (<["pA" := @JSString Z "7"]> ∅))
  = <["p_a" := JSString "7"]> (<["p__a" := JSString "7"]> ∅)
  /\ (generateInputSchemaShape (td_parameters sharedNameFunction)
        (Mock.start Mock.unreachable)).1
     = inr (<["pA" := ZodString]> ∅).
Proof. split; vm_compute; reflexivity. Qed.

Lemma supplied_arguments_are_forwarded_witness :
  (forall p,
      p ∈ td_parameters sharedNameFunction ->
      hasOwn (Some (<["pA" := @JSString Z "7"]> ∅)) (toolParamName p) = true ->
      name p <> "__proto__" ->
      buildRpcParams sharedNameFunction (Some (<["pA" := @JSString Z "7"]> ∅)) !! name p
      = Some (getArg (Some (<["pA" := @JSString Z "7"]> ∅)) (toolParamName p)))
  /\ (forall p q,
        p ∈ td_parameters sharedNameFunction -> q ∈ td_parameters sharedNameFunction ->
        toolParamName p = toolParamName q ->
        hasOwn (Some (<["pA" := @JSString Z "7"]> ∅)) (toolParamName p) = true ->
        name p <> "__proto__" -> name q <> "__proto__" ->
        buildRpcParams sharedNameFunction (Some (<["pA" := @JSString Z "7"]> ∅)) !! name p
        = buildRpcParams sharedNameFunction (Some (<["pA" := @JSString Z "7"]> ∅)) !! name q).
Proof.
  apply (supplied_arguments_are_forwarded sharedNameFunction
           (Some (<["pA" := @JSString Z "7"]> ∅))).
  cbn. repeat constructor; rewrite ?elem_of_cons, ?elem_of_nil; intros H;
    repeat destruct H as [H | H]; try discriminate; done.
Defined.

(** ** The handler, run *)

Section HandlerRuns.
Context {Num World : Type} `{!JSNumberOps Num} `{!SupabaseJs Num World}.

Lemma selectFromView_run this viewName (st : State World) :
  selectFromView this viewName st =
    let r := client_from_select viewName (db st) in
    match r.1 with
    | Rejected e =>
        (inl e, logged {| db := r.2; console := console st |} [selectingEntry this viewName])
    | Settled data (Some error) =>
        (inl (ErrorObj ("Supabase select failed for view " ++ viewName ++ " in schema "
                          ++ schema this ++ ": " ++ pe_message error)),
         logged {| db := r.2; console := console st |}
           [selectingEntry this viewName;
            {| level := ERROR;
               text := "Select from view " ++ schema this ++ "." ++ viewName ++ " failed:" |}])
    | Settled data None =>
        (inr (orEmptyArray data),
         logged {| db := r.2; console := console st |}
           [selectingEntry this viewName;
            {| level := LOG;
               text := "Select from " ++ schema this ++ "." ++ viewName ++ " successful." |}])
    end.
Proof.
  unfold selectFromView, mbind, M_bind, mret, M_ret, console_log, console_error, console_write,
    await_client, throw, logged.
  simpl.
  destruct (client_from_select viewName (db st)) as [[e | data [error |]] w]; simpl.
  - reflexivity.
  - by rewrite <- app_assoc.
  - rewrite <- app_assoc. by destruct data.
Qed.

Lemma handler_failure this (definition : IntrospectedToolDefinition) args
    (st st1 : State World) (error : Thrown) :
  dispatch this definition args (logged st [invokedEntry definition]) = (inl error, st1) ->
  handler this definition args st
  = (inr (errorPayload (errorMessageOf definition error)), logged st1 [errorEntry definition]).
Proof.
  intros Hd. unfold handler, tryCatch. rewrite bind_run. unfold console_log at 1.
  rewrite console_write_run. fold (invokedEntry definition).
  rewrite bind_run, Hd. rewrite bind_run. unfold console_error.
  rewrite console_write_run. by destruct error.
Qed.

(** X6: the handler of a tool never throws.  It answers with exactly one text
    item, and the answer is an error payload exactly when the read or call
    behind the tool failed; in both cases the database is left as that one
    read or call left it. *)
Theorem handler_always_answers
    (this : SupabaseClientWrapper) (definition : IntrospectedToolDefinition)
    (args : option (gmap string (JSValue Num))) (st : State World) :
  exists result st',
    handler this definition args st = (inr result, st')
    /\ (exists t, content result = [{| tc_type := "text"; tc_text := t |}])
    /\ (isError result = true
        <-> exists error,
              (dispatch this definition args (logged st [invokedEntry definition])).1
              = inl error)
    /\ db st' = db (dispatch this definition args (logged st [invokedEntry definition])).2.
Proof.
  destruct (dispatch this definition args (logged st [invokedEntry definition]))
    as [[error | rawResult] st1] eqn:Hd.
  - rewrite (handler_failure _ _ _ _ _ _ Hd). eexists. eexists. split; [reflexivity |].
    split; [by eexists |]. split; [| reflexivity].
    split; [intros _; by eexists | reflexivity].
  - destruct (handler_success _ _ _ _ _ _ Hd) as [s [Hrun _]].
    rewrite Hrun. eexists. eexists. split; [reflexivity |].
    split; [by eexists |]. split; [| reflexivity].
    split; [discriminate | intros [e He]; discriminate].
Qed.


Lemma handler_db this (definition : IntrospectedToolDefinition) args (st : State World) :
  db (handler this definition args st).2
  = db (dispatch this definition args (logged st [invokedEntry definition])).2.
Proof.
  destruct (dispatch this definition args (logged st [invokedEntry definition]))
    as [[error | rawResult] st1] eqn:Hd.
  - by rewrite (handler_failure _ _ _ _ _ _ Hd).
  - destruct (handler_success _ _ _ _ _ _ Hd) as [s [Hrun _]]. by rewrite Hrun.
Qed.

(** X8: one invocation is one database request.  A VIEW tool performs the
    select on its view and nothing else, and its answer does not depend on
    the arguments passed; a FUNCTION tool performs the one RPC with the
    record built from the arguments. *)
Theorem handler_performs_one_request
    (this : SupabaseClientWrapper) (definition : IntrospectedToolDefinition)
    (args args' : option (gmap string (JSValue Num))) (st : State World) :
  (type definition = VIEW ->
   (handler this definition args st).1 = (handler this definition args' st).1
   /\ db (handler this definition args st).2
      = (client_from_select (pgName definition) (db st)).2)
  /\ (type definition = FUNCTION ->
      db (handler this definition args st).2
      = (client_rpc (pgName definition) (buildRpcParams definition args) (db st)).2).
Proof.
  split.
  - intros Hview. split.
    + assert (Hsame : dispatch this definition args (logged st [invokedEntry definition])
                      = dispatch this definition args' (logged st [invokedEntry definition])).
      { unfold dispatch. by rewrite Hview. }
      destruct (dispatch this definition args (logged st [invokedEntry definition]))
        as [[error | rawResult] st1] eqn:Hd; symmetry in Hsame.
      * by rewrite (handler_failure _ _ _ _ _ _ Hd), (handler_failure _ _ _ _ _ _ Hsame).
      * destruct (handler_success _ _ _ _ _ _ Hd) as [s [Hrun Henc]].
        destruct (handler_success _ _ _ _ _ _ Hsame) as [s' [Hrun' Henc']].
        rewrite Hrun, Hrun'. rewrite Henc in Henc'. by injection Henc' as <-.
    + rewrite handler_db. unfold dispatch. rewrite Hview, selectFromView_run. cbn [db logged].
      by destruct (client_from_select (pgName definition) (db st)) as [[e | data [error |]] w].
  - intros Hfun. rewrite handler_db. unfold dispatch. rewrite Hfun, callRpc_run.
    cbn [db logged].
    by destruct (client_rpc (pgName definition) (buildRpcParams definition args) (db st))
      as [[e | data [error |]] w].
Qed.

End HandlerRuns.

(** With the database unreachable, the function tool answers with the error
    payload and the message of the database. *)
Example handler_unreachable_run :
  (handler Mock.this Mock.addNoteToUser None (Mock.start Mock.unreachable)).1
  = inr (errorPayload ("Tool execution failed: Supabase RPC call failed for "
                         ++ "add_note_to_user: connection refused")).
Proof. vm_compute. reflexivity. Qed.

(** ** The registry after registration *)

Section RegistryProofs.
Context {World : Type}.

Lemma generateInputSchemaShape_run (ps : list IntrospectedParameter) (st : State World) :
  exists entries,
    generateInputSchemaShape ps st = (inr (inputShapeOf ps), logged st entries).
Proof.
  unfold generateInputSchemaShape, inputShapeOf. generalize (∅ : gmap string ZodType).
  revert st. induction ps as [| p rest IH]; intros st acc.
  - exists []. by rewrite logged_nil.
  - cbn [forEach foldl]. rewrite bind_run, bind_run, mapPgTypeToZod_run. cbn [mret M_ret].
    fold (parameterSchema p).
    destruct (IH (logged st (mapElementType (elementTypeOf (pgType p))).2)
                (js_set (toolParamName p) (parameterSchema p) acc)) as [entries Hrun].
    rewrite Hrun, logged_logged. by eexists.
Qed.

Lemma registerTool_exact (server : gmap string RegisteredTool)
    (definition : IntrospectedToolDefinition) (st : State World) :
  exists entries,
    registerTool server definition st =
      (inr (match server !! toolName definition with
            | Some _ => server
            | None => <[toolName definition := registeredFor definition]> server
            end),
       logged st entries).
Proof.
  assert (Hshape : exists entries,
             (match type definition with
              | FUNCTION => generateInputSchemaShape (td_parameters definition)
              | VIEW => mret ∅
              end) st
             = (inr (match type definition with
                     | FUNCTION => inputShapeOf (td_parameters definition)
                     | VIEW => ∅
                     end), logged st entries)).
  { destruct (type definition).
    - exists []. by rewrite logged_nil.
    - apply generateInputSchemaShape_run. }
  destruct Hshape as [entries Hshape].
  unfold registerTool, tryCatch. rewrite bind_run, Hshape.
  rewrite bind_run. unfold McpServer_tool.
  destruct (server !! toolName definition) as [taken |].
  - unfold throw. rewrite bind_run. unfold console_error. rewrite console_write_run.
    cbn [mret M_ret]. rewrite logged_logged. by eexists.
  - cbn [mret M_ret]. rewrite bind_run. unfold console_log. rewrite console_write_run.
    rewrite logged_logged. by eexists.
Qed.

Lemma registerTools_exact (defs : list IntrospectedToolDefinition) :
  forall (server : gmap string RegisteredTool) (st : State World),
  exists final entries,
    forEach registerTool defs server st = (inr final, logged st entries)
    /\ forall n,
         final !! n
         = match server !! n with
           | Some rt => Some rt
           | None => registeredFor <$> firstNamed n defs
           end.
Proof.
  induction defs as [| d rest IH]; intros server st.
  - exists server, []. rewrite logged_nil. split; [reflexivity |].
    intros n. by destruct (server !! n).
  - cbn [forEach]. rewrite bind_run.
    destruct (registerTool_exact server d st) as [entries Hrun]. rewrite Hrun.
    match goal with
    | |- context [forEach registerTool rest ?server' ?st'] =>
        destruct (IH server' st') as [final [entries' [Hrest Hreg]]]
    end.
    rewrite Hrest, logged_logged. exists final, (entries ++ entries')%list.
    split; [reflexivity |].
    intros n. rewrite Hreg. unfold firstNamed. cbn [List.find].
    destruct (server !! toolName d) as [taken |] eqn:Htaken.
    + destruct (server !! n) as [rt |] eqn:Hn; [reflexivity |].
      destruct (String.eqb (toolName d) n) eqn:Heq; [| reflexivity].
      apply String.eqb_eq in Heq. congruence.
    + destruct (String.eqb (toolName d) n) eqn:Heq.
      * apply String.eqb_eq in Heq. subst n.
        by rewrite lookup_insert_eq, Htaken.
      * apply String.eqb_neq in Heq. by rewrite lookup_insert_ne.
Qed.

(** X9: the registry after [registerTools], name by name: a tool that was
    registered before is left exactly as it was, and a free name gets the
    first definition of that name with its description (only when that is a
    non-empty string) and its input shape, which is the empty object for a
    VIEW whatever parameters its definition lists.  No other name is added. *)
Theorem registerTools_registry
    (toolDefinitions : list IntrospectedToolDefinition)
    (server : gmap string RegisteredTool) (st : State World) :
  exists final st',
    registerTools toolDefinitions server st = (inr final, st')
    /\ db st' = db st
    /\ (forall n,
          final !! n
          = match server !! n with
            | Some rt => Some rt
            | None => registeredFor <$> firstNamed n toolDefinitions
            end)
    /\ (forall d, type d = VIEW -> rt_inputSchema (registeredFor d) = ∅)
    /\ (forall d, td_description d = Some "" -> rt_description (registeredFor d) = None).
Proof.
  unfold registerTools.
  match goal with
  | |- context [console_log ?msg] =>
      destruct (registerTools_exact toolDefinitions server
                  (logged st [{| level := LOG; text := msg |}]))
        as [final [entries [Hrun Hreg]]]
  end.
  exists final. eexists. split; [| split; [| split; [exact Hreg | split]]].
  - rewrite bind_run. unfold console_log. rewrite console_write_run. exact Hrun.
  - reflexivity.
  - intros d Hview. unfold registeredFor. by rewrite Hview.
  - intros d Hdesc. unfold registeredFor, registration. cbn. by rewrite Hdesc.
Qed.

End RegistryProofs.

(** ** The database wrapper *)

Section WrapperProofs.
Context {Num World : Type} `{!JSNumberOps Num} `{!SupabaseJs Num World}.

(** X10: [callRpc] sends exactly one request.  It returns the data of the
    answer as it is, [null] included, when the answer carries no error; when
    the answer carries an error it throws, whatever data came with it, and
    the message names the function and repeats the message of the database;
    it throws in no other case than an error or a rejected request. *)
Theorem callRpc_outcomes
    (this : SupabaseClientWrapper) (functionName : string)
    (params : gmap string (JSValue Num)) (st : State World) :
  db (callRpc this functionName params st).2 = (client_rpc functionName params (db st)).2
  /\ (forall data,
        (client_rpc functionName params (db st)).1 = Settled data None ->
        (callRpc this functionName params st).1 = inr data)
  /\ (forall data error,
        (client_rpc functionName params (db st)).1 = Settled data (Some error) ->
        (callRpc this functionName params st).1
        = inl (ErrorObj ("Supabase RPC call failed for " ++ functionName ++ ": "
                           ++ pe_message error)))
  /\ ((exists thrown, (callRpc this functionName params st).1 = inl thrown)
      <-> forall data, (client_rpc functionName params (db st)).1 <> Settled data None).
Proof.
  rewrite callRpc_run. cbv zeta.
  destruct (client_rpc functionName params (db st)) as [[e | data [error |]] w]; cbn [fst snd].
  - split; [reflexivity |]. split; [discriminate |]. split; [discriminate |].
    split; [intros _ d; discriminate | intros _; by eexists].
  - split; [reflexivity |]. split; [discriminate |]. split.
    + intros d e H. by injection H as <- <-.
    + split; [intros _ d; discriminate | intros _; by eexists].
  - split; [reflexivity |]. split; [| split; [discriminate |]].
    + intros d H. by injection H as <-.
    + split; [intros [t Ht]; discriminate | intros H; by destruct (H data)].
Qed.

(** X11: [selectFromView] sends exactly one select and never returns [null] or
    [undefined]: absent data becomes the empty array, any other data is
    returned as it is; an error in the answer is thrown with a message that
    names the view and the schema. *)
Theorem selectFromView_outcomes
    (this : SupabaseClientWrapper) (viewName : string) (st : State World) :
  db (selectFromView this viewName st).2 = (client_from_select viewName (db st)).2
  /\ (forall data,
        (client_from_select viewName (db st)).1 = Settled data None ->
        (selectFromView this viewName st).1 = inr (orEmptyArray data))
  /\ (forall rows,
        (selectFromView this viewName st).1 = inr rows ->
        rows <> JSNull /\ rows <> JSUndefined)
  /\ (forall data error,
        (client_from_select viewName (db st)).1 = Settled data (Some error) ->
        (selectFromView this viewName st).1
        = inl (ErrorObj ("Supabase select failed for view " ++ viewName ++ " in schema "
                           ++ schema this ++ ": " ++ pe_message error))).
Proof.
  rewrite selectFromView_run. cbv zeta.
  destruct (client_from_select viewName (db st)) as [[e | data [error |]] w]; cbn [fst snd].
  - split; [reflexivity |]. split; [discriminate |]. split; discriminate.
  - split; [reflexivity |]. split; [discriminate |]. split; [discriminate |].
    intros d e H. by injection H as <- <-.
  - split; [reflexivity |]. split; [| split; [| discriminate]].
    + intros d H. by injection H as <-.
    + intros rows H. injection H as <-. by destruct data.
Qed.

(** X12: [fetchObjectDetails] never throws and sends exactly one request, with
    the name and the kind of the object.  It returns details exactly when the
    answer carries no error and validates against [objectDetailsSchema], and
    [null] otherwise; an answer without an [object_name], such as the error
    object or the empty object of the SQL helper, gives [null]. *)
Theorem fetchObjectDetails_outcomes
    (this : SupabaseClientWrapper) (obj : RawSchemaObject) (st : State World) :
  (exists st',
      fetchObjectDetails this (so_object_name obj) (so_object_type obj) st
      = (inr (validDetails (client_rpc "rpc_get_object_details" (detailsRequest obj)
                              (db st)).1), st')
      /\ db st' = (client_rpc "rpc_get_object_details" (detailsRequest obj) (db st)).2)
  /\ (forall o : list (string * JSValue Num),
        prop "object_name" o = JSUndefined ->
        validDetails (Settled (JSObject o) None) = None)
  /\ (forall data error, validDetails (Settled (data : JSValue Num) (Some error)) = None)
  /\ (forall e, validDetails (@Rejected Num e) = None).
Proof.
  split; [| split; [| split]].
  - destruct (fetchObjectDetails_run this obj st) as [entries Hrun]. cbv zeta in Hrun.
    eexists. split; [exact Hrun | reflexivity].
  - intros o Hname. cbn [validDetails]. unfold objectDetailsSchema. by rewrite Hname.
  - reflexivity.
  - reflexivity.
Qed.

(** X13: the listing is all or nothing.  When the answer to
    [rpc_get_schema_objects] is an array in which a single entry does not
    validate, [introspectSchema] reports the parse failure, asks for no
    details at all and returns the empty list: the well-formed entries of the
    same listing are lost with it. *)
Theorem introspectSchema_listing_is_all_or_nothing
    (this : SupabaseClientWrapper) (st : State World)
    (entries : list (JSValue Num)) (bad : JSValue Num) :
  (client_rpc "rpc_get_schema_objects" ∅ (db st)).1 = Settled (JSArray entries) None ->
  bad ∈ entries ->
  schemaObjectSchema bad = None ->
  exists st',
    introspectSchema this st = (inr [], st')
    /\ db st' = (client_rpc "rpc_get_schema_objects" ∅ (db st)).2
    /\ parseFailure ∈ console st'.
Proof.
  intros Hreply Hin Hbad.
  assert (Hparse : z_array schemaObjectSchema (JSArray entries) = None).
  { cbn [z_array]. destruct (mapM schemaObjectSchema entries) as [objs |] eqn:Hm; [| done].
    assert (Hall : is_Some (mapM schemaObjectSchema entries)) by (by eexists).
    apply mapM_is_Some in Hall. rewrite Forall_forall in Hall.
    specialize (Hall bad Hin). cbn in Hall. rewrite Hbad in Hall. by destruct Hall. }
  rewrite introspectSchema_unfold, callRpc_run. cbn [db logged]. rewrite Hreply.
  rewrite Hparse. eexists. split; [reflexivity |]. split; [reflexivity |].
  unfold logged. cbn [console]. apply elem_of_app. right. apply elem_of_cons. by left.
Qed.

(** X14: what a tool definition holds, by kind.  The catalog name, the kind and
    the comment are carried over.  A VIEW has no parameters and no return
    type, whatever the payload says; a FUNCTION has no columns, whatever the
    payload says, one parameter per payload parameter, each described by the
    comment of the function, and the return type and set flag of the payload;
    when the payload of a FUNCTION has no [parameters] key, its return type
    and set flag are dropped as well. *)
Theorem transformToToolDefinition_by_kind (details : RawObjectDetails Num) :
  pgName (transformToToolDefinition details) = object_name details
  /\ type (transformToToolDefinition details) = object_type details
  /\ td_description (transformToToolDefinition details) = comment details
  /\ (object_type details = VIEW ->
      td_parameters (transformToToolDefinition details) = []
      /\ pgReturnType (transformToToolDefinition details) = None
      /\ pgReturnsSet (transformToToolDefinition details) = None
      /\ List.map ic_name (td_columns (transformToToolDefinition details))
         = List.map column_name (default [] (columns details)))
  /\ (object_type details = FUNCTION ->
      td_columns (transformToToolDefinition details) = []
      /\ List.map name (td_parameters (transformToToolDefinition details))
         = List.map parameter_name (default [] (parameters details))
      /\ Forall (fun p => description p = comment details)
           (td_parameters (transformToToolDefinition details))
      /\ pgReturnType (transformToToolDefinition details)
         = (parameters details ≫= fun _ => return_type details)
      /\ pgReturnsSet (transformToToolDefinition details)
         = (parameters details ≫= fun _ => returns_set details)).
Proof.
  unfold transformToToolDefinition.
  destruct (object_type details), (parameters details) as [ps |], (columns details) as [cs |];
    cbn;
    (split; [reflexivity |]); (split; [reflexivity |]); (split; [reflexivity |]);
    (split; intros Hkind; try discriminate);
    rewrite ?List.map_map; repeat split;
    try (apply List.Forall_map, List.Forall_forall; intros; reflexivity);
    constructor.
Qed.

(** X15: the columns of a view.  A view payload whose columns are well-formed
    validates, and the columns of the tool definition are the columns of the
    payload in the order of the payload, each with its type, its nullability
    and its comment, a [null] comment giving an undefined description. *)
Theorem view_columns_follow_payload_order
    (n : string) (c : JSValue Num) (cm : option string)
    (cols : list (string * string * bool * option string)) :
  z_nullable z_string c = Some cm ->
  exists details,
    objectDetailsSchema (viewPayload n c cols) = Some details
    /\ type (transformToToolDefinition details) = VIEW
    /\ td_parameters (transformToToolDefinition details) = []
    /\ td_columns (transformToToolDefinition details)
       = List.map (fun col => {| ic_name := col.1.1.1; ic_pgType := col.1.1.2;
                                 isNullable := col.1.2; ic_description := col.2 |}) cols.
Proof.
  intros Hc.
  assert (Hcols : mapM columnDetailSchema
                    (List.map (fun col =>
                                 JSObject [("column_name", JSString col.1.1.1);
                                           ("data_type", JSString col.1.1.2);
                                           ("is_nullable", JSBool col.1.2);
                                           ("comment",
                                            match col.2 with
                                            | Some text => @JSString Num text
                                            | None => JSNull
                                            end)]) cols)
                  = Some (List.map (fun col => {| column_name := col.1.1.1;
                                                  cd_data_type := col.1.1.2;
                                                  is_nullable := col.1.2;
                                                  cd_comment := col.2 |}) cols)).
  { induction cols as [| col rest IH]; [reflexivity |].
    cbn [List.map mapM]. rewrite IH.
    unfold columnDetailSchema at 1. cbn. by destruct col.2. }
  unfold viewPayload, objectDetailsSchema. cbn [prop String.eqb Ascii.eqb Bool.eqb].
  cbn [z_string z_enum_object_type String.eqb Ascii.eqb Bool.eqb mbind option_bind].
  rewrite Hc. cbn [mbind option_bind].
  cbn [z_optional z_array z_string z_boolean fmap option_fmap option_map].
  rewrite Hcols. cbn [mbind option_bind fmap option_fmap option_map].
  eexists. split; [reflexivity |].
  unfold transformToToolDefinition. cbn. repeat split.
  by rewrite List.map_map.
Qed.

End WrapperProofs.

(** ** The requests of a discovery pass *)

Lemma discovered_requests (rawObjects : list RawSchemaObject) :
  forall w : Mock.Db,
    Mock.requests (discovered rawObjects w).2
    = (Mock.requests w ++ detailRequests rawObjects)%list.
Proof.
  induction rawObjects as [| obj rest IH]; intros w.
  - cbn. by rewrite app_nil_r.
  - cbn [discovered detailRequests List.map].
    set (r := client_rpc "rpc_get_object_details" (detailsRequest obj) w).
    assert (Hr : Mock.requests r.2
                 = (Mock.requests w ++ [("rpc_get_object_details", detailsRequest obj)])%list)
      by reflexivity.
    specialize (IH r.2). rewrite Hr in IH.
    destruct (validDetails r.1); cbn [fst snd]; rewrite IH, <- app_assoc; reflexivity.
Qed.

(** X16: the requests of one discovery pass, read off a database that records
    them: first the listing request without parameters, then, when the
    listing parsed, one detail request per listed object, in listing order,
    each with the name and kind of its object, and nothing else; when the
    listing did not parse, no further request. *)
Theorem introspectSchema_requests (this : SupabaseClientWrapper) (w : Mock.Db)
    (log : list LogEntry) :
  Mock.requests (db (introspectSchema this {| db := w; console := log |}).2)
  = (Mock.requests w
       ++ ("rpc_get_schema_objects", ∅)
       :: match parsedListing (Mock.objects_reply w) with
          | Some rawObjects => detailRequests rawObjects
          | None => []
          end)%list.
Proof.
  destruct (introspectSchema_run this {| db := w; console := log |}) as [entries Hrun].
  cbv zeta in Hrun. cbn [db] in Hrun.
  change (client_rpc "rpc_get_schema_objects" ∅ w).1 with (Mock.objects_reply w) in Hrun.
  destruct (parsedListing (Mock.objects_reply w)) as [rawObjects |].
  - destruct Hrun as [Hrun _]. rewrite Hrun. cbn [snd logged db].
    rewrite discovered_requests. cbn. by rewrite <- app_assoc.
  - destruct Hrun as [Hrun _]. rewrite Hrun. reflexivity.
Qed.

Lemma introspectSchema_listing_is_all_or_nothing_witness :
  exists st',
    introspectSchema Mock.this (Mock.start flawedListingDb) = (inr [], st')
    /\ db st' = (client_rpc "rpc_get_schema_objects" ∅ (db (Mock.start flawedListingDb))).2
    /\ parseFailure ∈ console st'.
Proof.
  apply (introspectSchema_listing_is_all_or_nothing Mock.this (Mock.start flawedListingDb)
           [JSObject [("object_name", JSString "active_user_profiles");
                      ("object_type", JSString "VIEW");
                      ("comment", JSNull)];
            JSObject [("object_name", JSString "add_note_to_user");
                      ("object_type", JSString "FUNCTION")]]
           (JSObject [("object_name", JSString "add_note_to_user");
                      ("object_type", JSString "FUNCTION")])).
  - reflexivity.
  - apply elem_of_cons. right. apply elem_of_cons. by left.
  - reflexivity.
Defined.

Lemma view_columns_follow_payload_order_witness :
  exists details,
    objectDetailsSchema
      (viewPayload "active_user_profiles" (@JSString Z "Active profiles.")
         [("id", "uuid", false, None);
          ("last_login", "timestamptz", true, Some "Timestamp of the last login.")])
    = Some details
    /\ type (transformToToolDefinition details) = VIEW
    /\ td_parameters (transformToToolDefinition details) = []
    /\ td_columns (transformToToolDefinition details)
       = List.map (fun col => {| ic_name := col.1.1.1; ic_pgType := col.1.1.2;
                                 isNullable := col.1.2; ic_description := col.2 |})
           [("id", "uuid", false, None);
            ("last_login", "timestamptz", true, Some "Timestamp of the last login.")].
Proof.
  apply (view_columns_follow_payload_order (Num := Z) "active_user_profiles"
           (JSString "Active profiles.") (Some "Active profiles.")).
  reflexivity.
Defined.

(** ** Creating the server *)

Section CreateServerProofs.
Context {Num World : Type} `{!JSNumberOps Num} `{!SupabaseJs Num World}.



Ltac log_step :=
  rewrite bind_run; unfold console_log at 1; rewrite console_write_run; cbv beta iota.

(** X17: without credentials no server is created and the database is not
    contacted: when the URL or the service key of the configuration is the
    empty string, [createMcpServer] throws the error of the wrapper's
    constructor behind the prefix [MCP Server setup failed: ]. *)
Theorem createMcpServer_requires_credentials (config : AppConfig Num) (st : State World) :
  supabaseUrl config = "" \/ supabaseServiceKey config = "" ->
  exists st',
    createMcpServer config st
    = (inl (ErrorObj ("MCP Server setup failed: "
                        ++ "Supabase URL and Service Key are required in the configuration.")),
       st')
    /\ db st' = db st.
Proof.
  intros Hmissing.
  assert (Hguard : String.eqb (supabaseUrl config) ""
                   || String.eqb (supabaseServiceKey config) "" = true).
  { apply orb_true_iff. destruct Hmissing as [-> | ->]; [by left | by right]. }
  unfold createMcpServer. do 2 log_step. unfold tryCatch. log_step.
  rewrite bind_run. unfold newSupabaseClientWrapper. rewrite Hguard.
  unfold throw at 1. cbv beta iota.
  rewrite bind_run. unfold console_error. rewrite console_write_run. cbv beta iota.
  unfold throw. eexists. split; reflexivity.
Qed.


End CreateServerProofs.

Lemma createMcpServer_requires_credentials_witness :
  exists st',
    createMcpServer keylessConfig (Mock.start idleDb)
    = (inl (ErrorObj ("MCP Server setup failed: "
                        ++ "Supabase URL and Service Key are required in the configuration.")),
       st')
    /\ db st' = db (Mock.start idleDb).
Proof.
  apply (createMcpServer_requires_credentials keylessConfig (Mock.start idleDb)).
  right. reflexivity.
Defined.


(** The catalog function [get_info] takes the name of the hardcoded tool, and
    the server is not created; with the catalog unreachable it is created,
    with [getInfo] alone. *)
Example createMcpServer_runs :
  (createMcpServer sampleConfig (Mock.start getInfoDb)).1
  = inl (ErrorObj "MCP Server setup failed: Tool getInfo is already registered")
  /\ (createMcpServer sampleConfig (Mock.start Mock.unreachable)).1
     = inr (<["getInfo" := GetInfoTool]> ∅).
Proof. split; vm_compute; reflexivity. Qed.

(** ** The configuration *)

Section ConfigProofs.
Context {Num : Type} `{!JSNumberOps Num} `{!ConfigRuntime Num}.


(** X20: the defaults and the strictness of the configuration.  For an object
    with a valid URL and a non-empty service key and none of the three other
    keys, [configSchema] fills in the schema [mcp_tools], the transport [http]
    and the port 3123; an object with any key outside the five of the schema
    is refused, whatever its other fields. *)
Theorem configSchema_defaults_and_strictness :
  (forall (o : list (string * JSValue Num)) url key,
      Number_isInteger (Number_3123 : Num) = true ->
      Number_isPositive (Number_3123 : Num) = true ->
      Forall (fun kv => kv.1 ∈ configKeys) o ->
      prop "supabaseUrl" o = JSString url -> isUrl url = true ->
      prop "supabaseServiceKey" o = JSString key -> key <> "" ->
      prop "schemaToScan" o = JSUndefined ->
      prop "transport" o = JSUndefined ->
      prop "httpPort" o = JSUndefined ->
      configSchema (JSObject o)
      = Some {| supabaseUrl := url; supabaseServiceKey := key; schemaToScan := "mcp_tools";
                transport := http; httpPort := Number_3123 |})
  /\ (forall (o : list (string * JSValue Num)) k x,
        (k, x) ∈ o -> k ∉ configKeys -> configSchema (JSObject o) = None).
Proof.
  split.
  - intros o url key Hint Hpos Hkeys Hurl Hvalid Hkey Hne Hs Ht Hp.
    assert (Hstrict : forallb (fun kv => JsString.oneOf kv.1 configKeys) o = true).
    { apply List.forallb_forall. intros kv Hin. rewrite Forall_forall in Hkeys.
      apply list_elem_of_In in Hin. specialize (Hkeys kv Hin).
      unfold JsString.oneOf. apply List.existsb_exists. exists kv.1.
      split; [by apply list_elem_of_In | apply String.eqb_refl]. }
    unfold configSchema. rewrite Hstrict, Hurl, Hkey, Hs, Ht, Hp.
    unfold z_string_url, z_string_min1. cbn [z_string mbind option_bind]. rewrite Hvalid.
    destruct key as [| c key]; [done |]. cbn [String.length Nat.leb mbind option_bind].
    cbn [z_default z_string z_enum_transport String.eqb Ascii.eqb Bool.eqb
           mbind option_bind].
    unfold z_number_int_positive, z_number_int. rewrite Hint. cbn [mbind option_bind].
    by rewrite Hpos.
  - intros o k x Hin Hout. unfold configSchema.
    destruct (forallb _ o) eqn:Hstrict; [| reflexivity].
    rewrite List.forallb_forall in Hstrict. apply list_elem_of_In in Hin.
    specialize (Hstrict _ Hin). cbn [fst] in Hstrict. unfold JsString.oneOf in Hstrict.
    apply List.existsb_exists in Hstrict as [k' [Hk' Heq]].
    apply String.eqb_eq in Heq. subst k'. apply list_elem_of_In in Hk'. contradiction.
Qed.

End ConfigProofs.


(** The file with the two required fields parses to the configuration with
    the three defaults; with one more key it is refused. *)
Example configSchema_runs :
  configSchema (JSObject minimalConfigFile)
  = Some minimalConfig
  /\ configSchema (JSObject (("port", JSNumber 8080%Z) :: minimalConfigFile)) = None.
Proof. split; vm_compute; reflexivity. Qed.
